(** * influxdb-go: the HTTP client of [influxdb.go], embedded and verified

    The Go file is a thin wrapper: it resolves a configuration into a
    [Client], builds request URLs by string concatenation, sends one HTTP
    request per operation through the injected [*http.Client] and turns the
    answer into an [error] or a decoded value.

    Layout: first the Go library calls the file relies on ([fmt], [net/url],
    [io/ioutil], [net/http], [encoding/json]), then the functions of
    [influxdb.go] in source order, then the theorems. *)

From Stdlib Require Import ZArith String Ascii List Bool Lia.
From stdpp Require Import base option list gmap strings.
Import ListNotations.

Local Open Scope string_scope.
Local Open Scope Z_scope.

#[local] Set Warnings "-register-all".

(** ** Go values *)

(** A Go [error] value; [Error] is its message, as the [Error()] method
    returns it. *)
Record error : Type := errorString { Error : string }.

(** A Go call either returns or panics (nil pointer dereference). *)
Inductive Outcome (A : Type) : Type :=
  | Returns (a : A)
  | Panics.
Arguments Returns {A} a.
Arguments Panics {A}.

(** A dynamic Go value, as [interface{}] holds it in this program: what a
    payload map carries and what [json.Unmarshal] stores.  A JSON number is
    kept as its literal text (Go stores a [float64]). *)
Inductive Value : Type :=
  | VNil
  | VBool (b : bool)
  | VNumber (literal : string)
  | VString (s : string)
  | VSlice (l : list Value)
  | VMap (m : gmap string Value).

(** ** strings *)

(** [strings.Contains], as a decidable test: [sub] occurs in [s]. *)
Fixpoint hasPrefix (sub s : string) : bool :=
  match sub, s with
  | EmptyString, _ => true
  | String a sub', String b s' => if Ascii.eqb a b then hasPrefix sub' s' else false
  | String _ _, EmptyString => false
  end.

Fixpoint Contains (s sub : string) : bool :=
  hasPrefix sub s ||
  match s with
  | EmptyString => false
  | String _ s' => Contains s' sub
  end.

(** ** strconv / fmt *)

(** One decimal digit. *)
Definition digit (n : Z) : ascii := ascii_of_nat (48 + Z.to_nat n).

(** The decimal digits of a non-negative number, most significant first;
    [fuel] bounds the number of digits. *)
Fixpoint digits (fuel : nat) (n : Z) (acc : string) : string :=
  match fuel with
  | O => acc
  | S fuel' =>
      let acc' := String (digit (n mod 10)) acc in
      if n / 10 =? 0 then acc' else digits fuel' (n / 10) acc'
  end.

(** [strconv.Itoa], the text the verb [%d] prints for an [int]. *)
Definition Itoa (n : Z) : string :=
  if n <? 0 then String "-"%char (digits (S (Z.to_nat (Z.log2 (- n)))) (- n) "")
  else digits (S (Z.to_nat (Z.log2 n))) n "".

(** [fmt.Sprintf("%s://%s%s?u=%s&p=%s", schema, host, path, username, password)]:
    the verb [%s] copies a string operand unchanged. *)
Definition Sprintf_url (schema host path username password : string) : string :=
  schema +:+ "://" +:+ host +:+ path +:+ "?u=" +:+ username +:+ "&p=" +:+ password.

(** [fmt.Sprintf("&%s=%s", name, value)]. *)
Definition Sprintf_option (name value : string) : string :=
  "&" +:+ name +:+ "=" +:+ value.

(** [fmt.Sprintf("/db/%s/authenticate", database)]. *)
Definition Sprintf_authenticate (database : string) : string :=
  "/db/" +:+ database +:+ "/authenticate".

(** [fmt.Errorf("Server returned (%d): %s", code, body)]. *)
Definition Errorf_server (code : Z) (body : string) : error :=
  errorString ("Server returned (" +:+ Itoa code +:+ "): " +:+ body).

(** ** Effects *)

(** [*http.Request], as [http.NewRequest(method, url, nil)] builds it. *)
Record http_Request : Type := mkRequest {
  Method : string;
  URL : string
}.

(** What a call does to the outside, in order: the calls on the
    [*http.Client] and the calls on the body of the response it answered
    (every operation handles one response). *)
Inductive Event : Type :=
  | EvGet (url : string)
  | EvPost (url contentType data : string)
  | EvDo (req : http_Request)
  | EvRead
  | EvClose.

Definition isClose (e : Event) : bool :=
  match e with EvClose => true | _ => false end.

Definition isRead (e : Event) : bool :=
  match e with EvRead => true | _ => false end.

Definition isRequest (e : Event) : bool :=
  match e with EvGet _ | EvPost _ _ _ | EvDo _ => true | _ => false end.

(** How many times the body was closed, and how many times it was read. *)
Definition closes (t : list Event) : nat := length (List.filter isClose t).
Definition reads (t : list Event) : nat := length (List.filter isRead t).

(** The requests among the events, and the URL each one names. *)
Definition requestsOf (t : list Event) : list Event := List.filter isRequest t.

Definition urlOf (e : Event) : option string :=
  match e with
  | EvGet url | EvPost url _ _ => Some url
  | EvDo req => Some (URL req)
  | EvRead | EvClose => None
  end.

Fixpoint urlsOf (t : list Event) : list string :=
  match t with
  | [] => []
  | e :: t' =>
      match urlOf e with
      | Some url => url :: urlsOf t'
      | None => urlsOf t'
      end
  end.

(** A Go function: from the events so far to what it returns (unless it
    panics) and the events extended. *)
Definition M (A : Type) : Type := list Event -> Outcome A * list Event.

Definition ret {A : Type} (a : A) : M A := fun t => (Returns a, t).

Definition bind {A B : Type} (m : M A) (k : A -> M B) : M B :=
  fun t =>
    match m t with
    | (Returns a, t') => k a t'
    | (Panics, t') => (Panics, t')
    end.

Notation "x <- m ;; k" := (bind m (fun x => k))
  (at level 20, m at level 99, k at level 200).
Notation "' pat <- m ;; k" := (bind m (fun x => match x with pat => k end))
  (at level 20, pat pattern, m at level 99, k at level 200).

Definition emit (e : Event) : M unit := fun t => (Returns tt, (t ++ [e])%list).

Definition panic {A : Type} : M A := fun t => (Panics, t).

(** A pointer dereferenced: nil panics. *)
Definition deref {A : Type} (p : option A) : M A :=
  match p with
  | Some a => ret a
  | None => panic
  end.

(** The calls deferred by a function, last deferred first, run as it
    returns [a]. *)
Fixpoint returning {A : Type} (defers : list (M unit)) (a : A) : M A :=
  match defers with
  | [] => ret a
  | d :: ds => 'tt <- d ;; returning ds a
  end.

(** A function started with nothing done yet: what it returns, and the
    events it leaves. *)
Definition run {A : Type} (m : M A) : Outcome A * list Event := m [].
Definition result {A : Type} (m : M A) : Outcome A := fst (run m).
Definition trace {A : Type} (m : M A) : list Event := snd (run m).

(** ** io / ioutil: the response body *)

(** An [io.ReadCloser]: the bytes it delivers and the failure the stream
    ends with instead of [io.EOF], if any. *)
Record ReadCloser : Type := mkBody {
  pending : string;
  failure : option error
}.

(** [Body.Close()]; every caller drops the error it returns. *)
Definition Close (b : ReadCloser) : M unit := emit EvClose.

(** The error of a read on a body that was closed before. *)
Definition errReadOnClosedBody : error :=
  errorString "http: read on closed response body".

(** [ioutil.ReadAll(body)]: everything up to the end of the stream, and the
    failure the stream ended with, if any ([io.EOF] is not an error).  A
    closed body refuses the read; a body read before has nothing left. *)
Definition ReadAll (b : ReadCloser) : M (string * option error) :=
  fun t =>
    if existsb isClose t then (Returns ("", Some errReadOnClosedBody), (t ++ [EvRead])%list)
    else if existsb isRead t then (Returns ("", failure b), (t ++ [EvRead])%list)
    else (Returns (pending b, failure b), (t ++ [EvRead])%list).

(** ** net/http *)

Record http_Response : Type := mkResponse {
  StatusCode : Z;
  Body : ReadCloser
}.

(** The [*http.Client]: what its methods answer, a response or an error
    (Go returns both as a pair of nilable values). *)
Record http_Client : Type := mkHttpClient {
  Get : string -> option http_Response * option error;
  Post : string -> string -> string -> option http_Response * option error;
  Do : http_Request -> option http_Response * option error
}.

(** A method called on the [*http.Client] of a client; on the nil pointer
    the call panics. *)
Definition client_Get (c : option http_Client) (url : string)
  : M (option http_Response * option error) :=
  h <- deref c ;; 'tt <- emit (EvGet url) ;; ret (Get h url).

Definition client_Post (c : option http_Client) (url contentType data : string)
  : M (option http_Response * option error) :=
  h <- deref c ;; 'tt <- emit (EvPost url contentType data) ;; ret (Post h url contentType data).

Definition client_Do (c : option http_Client) (req : http_Request)
  : M (option http_Response * option error) :=
  h <- deref c ;; 'tt <- emit (EvDo req) ;; ret (Do h req).

(** ** net/url *)

Definition byte_in (lo hi c : ascii) : bool :=
  ((nat_of_ascii lo <=? nat_of_ascii c) && (nat_of_ascii c <=? nat_of_ascii hi))%nat.

(** [shouldEscape(c, encodeQueryComponent)]: everything except the
    unreserved characters. *)
Definition shouldEscape (c : ascii) : bool :=
  if byte_in "a" "z" c || byte_in "A" "Z" c || byte_in "0" "9" c then false
  else if Ascii.eqb c "-" || Ascii.eqb c "_" || Ascii.eqb c "." || Ascii.eqb c "~" then false
  else true.

(** [upperhex[n]] for [n < 16]. *)
Definition upperhex (n : nat) : ascii :=
  if (n <? 10)%nat then ascii_of_nat (48 + n) else ascii_of_nat (55 + n).

(** [url.QueryEscape]: a space becomes [+], any other escaped byte [%XX]. *)
Fixpoint QueryEscape (s : string) : string :=
  match s with
  | EmptyString => EmptyString
  | String c s' =>
      if shouldEscape c then
        if Ascii.eqb c " " then String "+" (QueryEscape s')
        else String "%" (String (upperhex (nat_of_ascii c / 16))
                        (String (upperhex (nat_of_ascii c mod 16)) (QueryEscape s')))
      else String c (QueryEscape s')
  end.

(** [unhex]: the value of a hexadecimal digit, [None] on any other byte
    ([ishex] is false there). *)
Definition unhex (c : ascii) : option nat :=
  if byte_in "0" "9" c then Some (nat_of_ascii c - 48)%nat
  else if byte_in "a" "f" c then Some (nat_of_ascii c - 87)%nat
  else if byte_in "A" "F" c then Some (nat_of_ascii c - 55)%nat
  else None.

(** [url.QueryUnescape]: the inverse reading, [None] for an [EscapeError]
    (a [%] not followed by two hexadecimal digits). *)
Fixpoint QueryUnescape (s : string) : option string :=
  match s with
  | EmptyString => Some EmptyString
  | String "%" (String h (String l s')) =>
      match unhex h, unhex l, QueryUnescape s' with
      | Some a, Some b, Some r => Some (String (ascii_of_nat (a * 16 + b)) r)
      | _, _, _ => None
      end
  | String "%" _ => None
  | String "+" s' => option_map (String " ") (QueryUnescape s')
  | String c s' => option_map (String c) (QueryUnescape s')
  end.

(** ** unicode/utf8, unicode/utf16 *)

Definition byteN (n : N) : ascii := ascii_of_N n.

(** The encoding of [utf8.RuneError], U+FFFD. *)
Definition replacementChar : string :=
  String (byteN 239) (String (byteN 191) (String (byteN 189) EmptyString)).

(** [utf8.EncodeRune]: surrogates and runes past U+10FFFF encode as U+FFFD. *)
Definition EncodeRune (r : N) : string :=
  (if r <? 128 then String (byteN r) EmptyString
   else if r <? 2048 then
     String (byteN (192 + r / 64)) (String (byteN (128 + r mod 64)) EmptyString)
   else if (55296 <=? r) && (r <? 57344) then replacementChar
   else if r <? 65536 then
     String (byteN (224 + r / 4096))
       (String (byteN (128 + (r / 64) mod 64)) (String (byteN (128 + r mod 64)) EmptyString))
   else if r <=? 1114111 then
     String (byteN (240 + r / 262144))
       (String (byteN (128 + (r / 4096) mod 64))
          (String (byteN (128 + (r / 64) mod 64)) (String (byteN (128 + r mod 64)) EmptyString)))
   else replacementChar)%N.

Definition inN (lo hi : N) (c : ascii) : bool :=
  ((lo <=? N_of_ascii c) && (N_of_ascii c <=? hi))%N.

(** The width in bytes of the well-formed multi-byte sequence [s] starts
    with, [0] when [utf8.DecodeRune] answers [(RuneError, 1)]. *)
Definition runeWidth (s : string) : nat :=
  match s with
  | String b0 (String b1 rest) =>
      if inN 194 223 b0 then (if inN 128 191 b1 then 2 else 0)%nat
      else if inN 224 239 b0 then
        let lo := if N.eqb (N_of_ascii b0) 224 then 160%N else 128%N in
        let hi := if N.eqb (N_of_ascii b0) 237 then 159%N else 191%N in
        match rest with
        | String b2 _ => (if inN lo hi b1 && inN 128 191 b2 then 3 else 0)%nat
        | EmptyString => 0%nat
        end
      else if inN 240 244 b0 then
        let lo := if N.eqb (N_of_ascii b0) 240 then 144%N else 128%N in
        let hi := if N.eqb (N_of_ascii b0) 244 then 143%N else 191%N in
        match rest with
        | String b2 (String b3 _) =>
            (if inN lo hi b1 && inN 128 191 b2 && inN 128 191 b3 then 4 else 0)%nat
        | _ => 0%nat
        end
      else 0%nat
  | _ => 0%nat
  end.

(** [utf16.DecodeRune(r1, r2)] on a valid surrogate pair. *)
Definition decodeSurrogates (r1 r2 : N) : option N :=
  (if (55296 <=? r1) && (r1 <? 56320) && (56320 <=? r2) && (r2 <? 57344)
   then Some ((r1 - 55296) * 1024 + (r2 - 56320) + 65536)
   else None)%N.

(** ** encoding/json: reading *)

Definition dquote : ascii := "034"%char.

(** A JSON text written with ['] where JSON has the double quote. *)
Fixpoint js (s : string) : string :=
  match s with
  | EmptyString => EmptyString
  | String c s' => String (if Ascii.eqb c "'" then dquote else c) (js s')
  end.

Definition isSpace (c : ascii) : bool :=
  Ascii.eqb c " " || Ascii.eqb c "009" || Ascii.eqb c "010" || Ascii.eqb c "013".

Fixpoint skipSpace (s : string) : string :=
  match s with
  | String c s' => if isSpace c then skipSpace s' else s
  | EmptyString => s
  end.

(** [s] without its prefix [p], when it starts with [p]. *)
Fixpoint stripPrefix (p s : string) : option string :=
  match p, s with
  | EmptyString, _ => Some s
  | String a p', String b s' => if Ascii.eqb a b then stripPrefix p' s' else None
  | String _ _, EmptyString => None
  end.

Definition isDigit (c : ascii) : bool := byte_in "0" "9" c.

(** [getu4]: four hexadecimal digits. *)
Definition getu4 (s : string) : option (N * string) :=
  match s with
  | String a (String b (String c (String d rest))) =>
      match unhex a, unhex b, unhex c, unhex d with
      | Some x, Some y, Some z, Some w =>
          Some (N.of_nat (((x * 16 + y) * 16 + z) * 16 + w), rest)
      | _, _, _, _ => None
      end
  | _ => None
  end.

(** The rest of a string literal after its opening quote, unquoted as
    [unquote] does: escapes resolved, a lone surrogate or an ill-formed
    UTF-8 byte replaced by U+FFFD.  [None] where the scanner reports a
    syntax error.  Each step consumes a byte at least, so any [fuel] above
    the length of [s] is enough. *)
Fixpoint parseString (fuel : nat) (s : string) : option (string * string) :=
  match fuel with
  | O => None
  | S fuel' =>
      let emit (out : string) (rest : string) :=
        match parseString fuel' rest with
        | Some (str, r) => Some (out +:+ str, r)
        | None => None
        end in
      match s with
      | EmptyString => None
      | String c rest =>
          if Ascii.eqb c dquote then Some (EmptyString, rest)
          else if Ascii.eqb c "\" then
            match rest with
            | String e rest1 =>
                if Ascii.eqb e dquote || Ascii.eqb e "\" || Ascii.eqb e "/"
                then emit (String e EmptyString) rest1
                else if Ascii.eqb e "b" then emit (String "008" EmptyString) rest1
                else if Ascii.eqb e "f" then emit (String "012" EmptyString) rest1
                else if Ascii.eqb e "n" then emit (String "010" EmptyString) rest1
                else if Ascii.eqb e "r" then emit (String "013" EmptyString) rest1
                else if Ascii.eqb e "t" then emit (String "009" EmptyString) rest1
                else if Ascii.eqb e "u" then
                  match getu4 rest1 with
                  | Some (rr, rest2) =>
                      if ((55296 <=? rr) && (rr <? 57344))%N then
                        match stripPrefix "\u" rest2 with
                        | Some rest3 =>
                            match getu4 rest3 with
                            | Some (rr1, rest4) =>
                                match decodeSurrogates rr rr1 with
                                | Some r => emit (EncodeRune r) rest4
                                | None => emit replacementChar rest2
                                end
                            | None => emit replacementChar rest2
                            end
                        | None => emit replacementChar rest2
                        end
                      else emit (EncodeRune rr) rest2
                  | None => None
                  end
                else None
            | EmptyString => None
            end
          else if (N_of_ascii c <? 32)%N then None
          else if (N_of_ascii c <? 128)%N then emit (String c EmptyString) rest
          else
            match runeWidth s, rest with
            | 2%nat, String b r =>
                emit (String c (String b EmptyString)) r
            | 3%nat, String b (String d r) =>
                emit (String c (String b (String d EmptyString))) r
            | 4%nat, String b (String d (String e r)) =>
                emit (String c (String b (String d (String e EmptyString)))) r
            | _, _ => emit replacementChar rest
            end
      end
  end.

(** The longest prefix of digits, and what follows it. *)
Fixpoint scanDigits (s : string) : string * string :=
  match s with
  | String c s' =>
      if isDigit c then let '(d, r) := scanDigits s' in (String c d, r) else (EmptyString, s)
  | EmptyString => (EmptyString, EmptyString)
  end.

(** A number literal split into its parts. *)
Record Number : Type := mkNumber {
  negative : bool;
  intPart : string;
  fracPart : string;
  expNegative : bool;
  expPart : string
}.

(** The syntax tree of a JSON text; an object keeps its members in document
    order, repeated keys included. *)
Inductive JSON : Type :=
  | JNull
  | JBool (b : bool)
  | JNumber (literal : string) (parts : Number)
  | JString (s : string)
  | JArray (elems : list JSON)
  | JObject (members : list (string * JSON)).

(** The integer part of a number: a zero, or a digit from 1 to 9 followed
    by digits. *)
Definition scanInt (s : string) : option (string * string) :=
  match s with
  | String c r =>
      if Ascii.eqb c "0" then Some ("0", r)
      else if byte_in "1" "9" c then let '(d, r') := scanDigits r in Some (String c d, r')
      else None
  | EmptyString => None
  end.

(** The optional fraction: a dot and one digit or more. *)
Definition scanFrac (s : string) : option (string * string) :=
  match stripPrefix "." s with
  | Some r =>
      match scanDigits r with
      | (EmptyString, _) => None
      | (d, r') => Some (d, r')
      end
  | None => Some ("", s)
  end.

(** The optional exponent: e or E, an optional sign and one digit or more;
    the text of the mark and the sign, the sign, the digits, the rest. *)
Definition scanExp (s : string) : option (string * bool * string * string) :=
  match s with
  | String c r =>
      if Ascii.eqb c "e" || Ascii.eqb c "E" then
        let '(eneg, sign, r0) :=
          match stripPrefix "-" r, stripPrefix "+" r with
          | Some r', _ => (true, "-", r')
          | None, Some r' => (false, "+", r')
          | None, None => (false, "", r)
          end in
        match scanDigits r0 with
        | (EmptyString, _) => None
        | (d, r') => Some (String c sign, eneg, d, r')
        end
      else Some ("", false, "", s)
  | EmptyString => Some ("", false, "", s)
  end.

(** The JSON number grammar: an optional minus sign, the integer part, the
    optional fraction and the optional exponent.  The literal text
    consumed, its parts, and the rest. *)
Definition parseNumber (s : string) : option (string * Number * string) :=
  let '(neg, sgn, s0) :=
    match stripPrefix "-" s with
    | Some r => (true, "-", r)
    | None => (false, "", s)
    end in
  match scanInt s0 with
  | None => None
  | Some (ip, s1) =>
      match scanFrac s1 with
      | None => None
      | Some (fp, s2) =>
          match scanExp s2 with
          | None => None
          | Some (mark, eneg, ep, s3) =>
              Some (sgn +:+ ip +:+ (if fp is EmptyString then "" else "." +:+ fp)
                      +:+ mark +:+ ep,
                    mkNumber neg ip fp eneg ep, s3)
          end
      end
  end.

(** [maxNestingDepth] of the scanner. *)
Definition maxNestingDepth : N := 10000.

(** One JSON value at the head of [s] (after optional white space), and the
    rest of the text.  Of two nested calls one at least consumes a byte, so
    twice the length of the text, and one, is fuel enough ([parse_fuel]). *)
Fixpoint parseValue (fuel : nat) (depth : N) (s : string) {struct fuel} : option (JSON * string) :=
  match fuel with
  | O => None
  | S fuel' =>
      match skipSpace s with
      | EmptyString => None
      | String c r =>
          if Ascii.eqb c "{" then
            if (maxNestingDepth <? depth + 1)%N then None
            else
              match stripPrefix "}" (skipSpace r) with
              | Some r' => Some (JObject [], r')
              | None =>
                  match parseMembers fuel' (depth + 1)%N (skipSpace r) with
                  | Some (ms, r') => Some (JObject ms, r')
                  | None => None
                  end
              end
          else if Ascii.eqb c "[" then
            if (maxNestingDepth <? depth + 1)%N then None
            else
              match stripPrefix "]" (skipSpace r) with
              | Some r' => Some (JArray [], r')
              | None =>
                  match parseElements fuel' (depth + 1)%N (skipSpace r) with
                  | Some (vs, r') => Some (JArray vs, r')
                  | None => None
                  end
              end
          else if Ascii.eqb c dquote then
            match parseString (S (String.length r)) r with
            | Some (str, r') => Some (JString str, r')
            | None => None
            end
          else
            match stripPrefix "true" (String c r), stripPrefix "false" (String c r),
                  stripPrefix "null" (String c r) with
            | Some r', _, _ => Some (JBool true, r')
            | None, Some r', _ => Some (JBool false, r')
            | None, None, Some r' => Some (JNull, r')
            | None, None, None =>
                match parseNumber (String c r) with
                | Some (lit, n, r') => Some (JNumber lit n, r')
                | None => None
                end
            end
      end
  end
with parseElements (fuel : nat) (depth : N) (s : string) {struct fuel} : option (list JSON * string) :=
  match fuel with
  | O => None
  | S fuel' =>
      match parseValue fuel' depth s with
      | Some (v, r) =>
          match skipSpace r with
          | String c r' =>
              if Ascii.eqb c "," then
                match parseElements fuel' depth r' with
                | Some (vs, r'') => Some (v :: vs, r'')
                | None => None
                end
              else if Ascii.eqb c "]" then Some ([v], r')
              else None
          | EmptyString => None
          end
      | None => None
      end
  end
with parseMembers (fuel : nat) (depth : N) (s : string) {struct fuel} : option (list (string * JSON) * string) :=
  match fuel with
  | O => None
  | S fuel' =>
      match stripPrefix (String dquote "") (skipSpace s) with
      | Some r =>
          match parseString (S (String.length r)) r with
          | Some (key, r1) =>
              match stripPrefix ":" (skipSpace r1) with
              | Some r2 =>
                  match parseValue fuel' depth r2 with
                  | Some (v, r3) =>
                      match skipSpace r3 with
                      | String c r4 =>
                          if Ascii.eqb c "," then
                            match parseMembers fuel' depth r4 with
                            | Some (ms, r5) => Some ((key, v) :: ms, r5)
                            | None => None
                            end
                          else if Ascii.eqb c "}" then Some ([(key, v)], r4)
                          else None
                      | EmptyString => None
                      end
                  | None => None
                  end
              | None => None
              end
          | None => None
          end
      | None => None
      end
  end.

(** [checkValid] and the scan of the whole text: exactly one value, white
    space around it. *)
Definition parseJSON (data : string) : option JSON :=
  match parseValue (2 * String.length data + 1) 0%N data with
  | Some (v, rest) =>
      match skipSpace rest with
      | EmptyString => Some v
      | String _ _ => None
      end
  | None => None
  end.

(** The value of a run of decimal digits. *)
Fixpoint digitsValue (acc : Z) (s : string) : Z :=
  match s with
  | EmptyString => acc
  | String c s' => digitsValue (acc * 10 + (Z.of_nat (nat_of_ascii c) - 48)) s'
  end.

Fixpoint dropZeros (s : string) : string :=
  match s with
  | String "0" s' => dropZeros s'
  | _ => s
  end.

(** Half way between the largest [float64] and [2^1024]: a decimal at or
    above it rounds out of range. *)
Definition float64Limit : Z := 2 ^ 1024 - 2 ^ 970.

(** [strconv.ParseFloat(s, 64)] answers [ErrRange]: the number, [m * 10^e]
    with [m] of [nd] digits, is at or above the limit.  The two first tests
    settle every case but [nd + e = 309] without computing the power. *)
Definition float64Overflows (n : Number) : bool :=
  let mant := intPart n +:+ fracPart n in
  let m := digitsValue 0 mant in
  let e := (if expNegative n then - digitsValue 0 (expPart n) else digitsValue 0 (expPart n))
           - Z.of_nat (String.length (fracPart n)) in
  let nd := Z.of_nat (String.length (dropZeros mant)) in
  if m =? 0 then false
  else if nd + e <=? 308 then false
  else if 310 <=? nd + e then true
  else if 0 <=? e then float64Limit <=? m * 10 ^ e
  else float64Limit * 10 ^ (- e) <=? m.

(** [*json.UnmarshalTypeError]: a JSON value that does not fit the Go type. *)
Definition UnmarshalTypeError (value type : string) : error :=
  errorString ("json: cannot unmarshal " +:+ value +:+ " into Go value of type " +:+ type).

(** [*json.SyntaxError]; Go's message names the offending byte, the model
    keeps one message for all of them. *)
Definition SyntaxError : error := errorString "json: invalid JSON text".

(** A JSON value stored into an [interface{}]: always fits, but for a number
    out of the range of [float64].  The first error in document order is the
    one [Unmarshal] reports. *)
Fixpoint toInterface (j : JSON) : Value + error :=
  match j with
  | JNull => inl VNil
  | JBool b => inl (VBool b)
  | JNumber lit n =>
      if float64Overflows n then inr (UnmarshalTypeError ("number " +:+ lit) "float64")
      else inl (VNumber lit)
  | JString s => inl (VString s)
  | JArray elems =>
      match
        (fix each (l : list JSON) : list Value + error :=
           match l with
           | [] => inl []
           | x :: xs =>
               match toInterface x with
               | inr e => inr e
               | inl v =>
                   match each xs with
                   | inr e => inr e
                   | inl vs => inl (v :: vs)
                   end
               end
           end) elems
      with
      | inr e => inr e
      | inl vs => inl (VSlice vs)
      end
  | JObject members =>
      match
        (fix each (l : list (string * JSON)) (m : gmap string Value) : gmap string Value + error :=
           match l with
           | [] => inl m
           | (k, x) :: rest =>
               match toInterface x with
               | inr e => inr e
               | inl v => each rest (<[k := v]> m)
               end
           end) members ∅
      with
      | inr e => inr e
      | inl m => inl (VMap m)
      end
  end.

(** The members of an object stored into a [map[string]interface{}], in
    document order: a repeated key keeps its last value. *)
Fixpoint storeMembers (l : list (string * JSON)) (m : gmap string Value) : gmap string Value + error :=
  match l with
  | [] => inl m
  | (k, x) :: rest =>
      match toInterface x with
      | inr e => inr e
      | inl v => storeMembers rest (<[k := v]> m)
      end
  end.

Definition typeRecord : string := "map[string]interface {}".
Definition typeRecords : string := "[]map[string]interface {}".

(** One array element stored into a [map[string]interface{}]: an object
    fills the map, [null] leaves the nil map (it reads as the empty map),
    anything else does not fit. *)
Definition decodeRecord (j : JSON) : gmap string Value + error :=
  match j with
  | JObject members => storeMembers members ∅
  | JNull => inl ∅
  | JArray _ => inr (UnmarshalTypeError "array" typeRecord)
  | JString _ => inr (UnmarshalTypeError "string" typeRecord)
  | JNumber _ _ => inr (UnmarshalTypeError "number" typeRecord)
  | JBool _ => inr (UnmarshalTypeError "bool" typeRecord)
  end.

Fixpoint decodeElements (l : list JSON) : list (gmap string Value) + error :=
  match l with
  | [] => inl []
  | x :: xs =>
      match decodeRecord x with
      | inr e => inr e
      | inl m =>
          match decodeElements xs with
          | inr e => inr e
          | inl ms => inl (m :: ms)
          end
      end
  end.

(** A JSON value stored into a [[]map[string]interface{}]: an array fills
    the slice, [null] sets it to the nil slice (the empty list) without an
    error, anything else does not fit. *)
Definition decodeRecords (j : JSON) : list (gmap string Value) + error :=
  match j with
  | JArray elems => decodeElements elems
  | JNull => inl []
  | JObject _ => inr (UnmarshalTypeError "object" typeRecords)
  | JString _ => inr (UnmarshalTypeError "string" typeRecords)
  | JNumber _ _ => inr (UnmarshalTypeError "number" typeRecords)
  | JBool _ => inr (UnmarshalTypeError "bool" typeRecords)
  end.

(** The shapes [decodeRecords] and [decodeRecord] accept. *)
Definition isArrayOrNull (j : JSON) : bool :=
  match j with
  | JArray _ | JNull => true
  | _ => false
  end.

Definition isObjectOrNull (j : JSON) : bool :=
  match j with
  | JObject _ | JNull => true
  | _ => false
  end.

(** [json.Unmarshal(data, &somethings)] for [somethings] of type
    [[]map[string]interface{}]: the text is checked whole, then stored. *)
Definition Unmarshal_records (data : string) : list (gmap string Value) + error :=
  match parseJSON data with
  | None => inr SyntaxError
  | Some j => decodeRecords j
  end.

(** * The data of influxdb.go *)

Record Client : Type := mkClient {
  host : string;
  username : string;
  password : string;
  database : string;
  httpClient : option http_Client;
  schema : string
}.

Record ClientConfig : Type := mkClientConfig {
  Host : string;
  Username : string;
  Password : string;
  Database : string;
  HttpClient : option http_Client;
  IsSecure : bool
}.

(** * Fixtures: a toy server side and encoders, for the examples *)

Module Demo.

(** A transport whose every method answers with a response of status [code]
    and body text [text]. *)
Definition server (code : Z) (text : string) : http_Client :=
  let answer := (Some (mkResponse code (mkBody text None)), None) in
  {| Get := fun _ => answer; Post := fun _ _ _ => answer; Do := fun _ => answer |}.

(** A transport whose response body breaks off with [e] after [text]. *)
Definition brokenBody (code : Z) (text : string) (e : error) : http_Client :=
  let answer := (Some (mkResponse code (mkBody text (Some e))), None) in
  {| Get := fun _ => answer; Post := fun _ _ _ => answer; Do := fun _ => answer |}.

(** A transport that fails with [e] and hands back no response. *)
Definition unreachable (e : error) : http_Client :=
  let answer := (None, Some e) in
  {| Get := fun _ => answer; Post := fun _ _ _ => answer; Do := fun _ => answer |}.


(** A URL check that accepts every text. *)
Definition anyURL (url : string) : option error := None.

(** A string literal: the quote and the backslash escaped. *)
Fixpoint quoteBody (s : string) : string :=
  match s with
  | EmptyString => EmptyString
  | String c s' =>
      if Ascii.eqb c dquote || Ascii.eqb c "\" then String "\" (String c (quoteBody s'))
      else String c (quoteBody s')
  end.

Definition quote (s : string) : string :=
  String dquote (quoteBody s +:+ String dquote EmptyString).

Fixpoint join (sep : string) (l : list string) : string :=
  match l with
  | [] => ""
  | [x] => x
  | x :: xs => x +:+ sep +:+ join sep xs
  end.

Fixpoint insertByKey (kv : string * string) (l : list (string * string)) : list (string * string) :=
  match l with
  | [] => [kv]
  | x :: xs => if String.leb (fst kv) (fst x) then kv :: x :: xs else x :: insertByKey kv xs
  end.

(** An encoder for the values the payloads hold: members by sorted key. *)
Fixpoint encode (v : Value) : string :=
  match v with
  | VNil => "null"
  | VBool true => "true"
  | VBool false => "false"
  | VNumber lit => lit
  | VString s => quote s
  | VSlice l => "[" +:+ join "," (List.map encode l) +:+ "]"
  | VMap m =>
      "{" +:+ join "," (List.map (fun kv => quote (fst kv) +:+ ":" +:+ snd kv)
                          (fold_right insertByKey [] (map_to_list (encode <$> m)))) +:+ "}"
  end.

Definition Marshal (v : Value) : string + error := inl (encode v).

(** Modelled from the spec: the type [Series], which a file of the package
    that is not among the sources declares; the specification describes it
    as a name, column names and rows of values. *)
Record Series : Type := mkSeries {
  Name : string;
  Columns : list string;
  Points : list (list Value)
}.

Definition seriesValue (s : Series) : Value :=
  VMap (<[ "points" := VSlice (List.map VSlice (Points s)) ]>
       (<[ "columns" := VSlice (List.map VString (Columns s)) ]>
       (<[ "name" := VString (Name s) ]> ∅))).

Definition Marshal_Series (l : list Series) : string + error :=
  inl (encode (VSlice (List.map seriesValue l))).

(** A decoder of series that reads the names only. *)
Definition Unmarshal_Series (data : string) : list Series + error :=
  match Unmarshal_records data with
  | inr e => inr e
  | inl ms =>
      inl (List.map (fun m => match m !! "name" with
                              | Some (VString n) => mkSeries n [] []
                              | _ => mkSeries "" [] []
                              end) ms)
  end.

(** A client as [NewClient] makes it from a configuration that names the
    database [db0] and the transport [h], and nothing else. *)
Definition client (h : http_Client) : Client :=
  mkClient "localhost:8086" "root" "root" "db0" (Some h) "http".

(** The transport most examples use, its one response, the client on it,
    and a series to write. *)
Definition okServer : http_Client := server 200 (js "[{'name':'root'}]").
Definition okResponse : http_Response := mkResponse 200 (mkBody (js "[{'name':'root'}]") None).
Definition okClient : Client := client okServer.
Definition cpu : Series := mkSeries "cpu" ["value"] [[VNumber "1"]].

End Demo.

(** * The program: influxdb.go *)

Section influxdb.

(** What the file takes from elsewhere: the default client of [net/http],
    the URL check [http.NewRequest] makes ([url.Parse]), the encoder
    [json.Marshal], and the type [Series], which another file of the package
    declares, with its encoder and decoder. *)
Variable http_DefaultClient : http_Client.
Variable url_Parse : string -> option error.
Variable json_Marshal : Value -> string + error.
Variable Series : Type.
Variable json_Marshal_Series : list Series -> string + error.
Variable json_Unmarshal_Series : string -> list Series + error.

(** [http.NewRequest(method, url, nil)]. *)
Definition http_NewRequest (method url : string) : http_Request + error :=
  match url_Parse url with
  | Some err => inr err
  | None => inl (mkRequest method url)
  end.

(** The package variable [defaults], as [init] sets it. *)
Definition defaults : ClientConfig :=
  {| Host := "localhost:8086";
     Username := "root";
     Password := "root";
     Database := "";
     HttpClient := Some http_DefaultClient;
     IsSecure := false |}.

Definition getDefault (value defaultValue : string) : string :=
  if String.eqb value "" then defaultValue else value.

(** [NewClient(config)]: the client and the error returned, and the object
    [config] points to as the call leaves it. *)
Definition NewClient (config : ClientConfig) : (Client * option error) * ClientConfig :=
  let host := getDefault (Host config) (Host defaults) in
  let username := getDefault (Username config) (Username defaults) in
  let passowrd := getDefault (Password config) (Password defaults) in
  let database := getDefault (Database config) (Database defaults) in
  let config :=
    match HttpClient config with
    | None =>
        {| Host := Host config; Username := Username config; Password := Password config;
           Database := Database config; HttpClient := HttpClient defaults;
           IsSecure := IsSecure config |}
    | Some _ => config
    end in
  let schema := if IsSecure config then "https" else "http" in
  ((mkClient host username passowrd database (HttpClient config) schema, None), config).

Definition getUrlWithUserAndPass (self : Client) (path username password : string) : string :=
  Sprintf_url (schema self) (host self) path username password.

Definition getUrl (self : Client) (path : string) : string :=
  getUrlWithUserAndPass self path (username self) (password self).

Definition responseToError (response : option http_Response) (err : option error)
    (closeResponse : bool) : M (option error) :=
  match err with
  | Some err => ret (Some err)
  | None =>
      defers <- (if closeResponse
                 then r <- deref response ;; ret [Close (Body r)]
                 else ret []) ;;
      r <- deref response ;;
      if (200 <=? StatusCode r) && (StatusCode r <? 300) then returning defers None
      else
        let defers := Close (Body r) :: defers in
        '(body, err) <- ReadAll (Body r) ;;
        match err with
        | Some err => returning defers (Some err)
        | None => returning defers (Some (Errorf_server (StatusCode r) body))
        end
  end.

Definition CreateDatabase (self : Client) (name : string) : M (option error) :=
  let url := getUrl self "/db" in
  let payload : gmap string Value := {[ "name" := VString name ]} in
  match json_Marshal (VMap payload) with
  | inr err => ret (Some err)
  | inl data =>
      '(resp, err) <- client_Post (httpClient self) url "application/json" data ;;
      responseToError resp err true
  end.

Definition del (self : Client) (url : string) : M (option http_Response * option error) :=
  match http_NewRequest "DELETE" url with
  | inr err => ret (None, Some err)
  | inl req => client_Do (httpClient self) req
  end.

Definition DeleteDatabase (self : Client) (name : string) : M (option error) :=
  let url := getUrl self ("/db/" +:+ name) in
  '(resp, err) <- del self url ;;
  responseToError resp err true.

Definition listSomething (self : Client) (url : string)
  : M (list (gmap string Value) * option error) :=
  '(resp, err) <- client_Get (httpClient self) url ;;
  err <- responseToError resp err false ;;
  match err with
  | Some err => ret ([], Some err)
  | None =>
      r <- deref resp ;;
      let defers := [Close (Body r)] in
      '(body, err) <- ReadAll (Body r) ;;
      match err with
      | Some err => returning defers ([], Some err)
      | None =>
          match Unmarshal_records body with
          | inr err => returning defers ([], Some err)
          | inl somethings => returning defers (somethings, None)
          end
      end
  end.

Definition GetDatabaseList (self : Client) : M (list (gmap string Value) * option error) :=
  let url := getUrl self "/db" in
  listSomething self url.

Definition CreateClusterAdmin (self : Client) (name password : string) : M (option error) :=
  let url := getUrl self "/cluster_admins" in
  let payload : gmap string Value :=
    <[ "password" := VString password ]> (<[ "name" := VString name ]> ∅) in
  match json_Marshal (VMap payload) with
  | inr err => ret (Some err)
  | inl data =>
      '(resp, err) <- client_Post (httpClient self) url "application/json" data ;;
      responseToError resp err true
  end.

Definition UpdateClusterAdmin (self : Client) (name password : string) : M (option error) :=
  let url := getUrl self ("/cluster_admins/" +:+ name) in
  let payload : gmap string Value := {[ "password" := VString password ]} in
  match json_Marshal (VMap payload) with
  | inr err => ret (Some err)
  | inl data =>
      '(resp, err) <- client_Post (httpClient self) url "application/json" data ;;
      responseToError resp err true
  end.

Definition DeleteClusterAdmin (self : Client) (name : string) : M (option error) :=
  let url := getUrl self ("/cluster_admins/" +:+ name) in
  '(resp, err) <- del self url ;;
  responseToError resp err true.

Definition GetClusterAdminList (self : Client) : M (list (gmap string Value) * option error) :=
  let url := getUrl self "/cluster_admins" in
  listSomething self url.

Definition CreateDatabaseUser (self : Client) (database name password : string) : M (option error) :=
  let url := getUrl self ("/db/" +:+ database +:+ "/users") in
  let payload : gmap string Value :=
    <[ "password" := VString password ]> (<[ "name" := VString name ]> ∅) in
  match json_Marshal (VMap payload) with
  | inr err => ret (Some err)
  | inl data =>
      '(resp, err) <- client_Post (httpClient self) url "application/json" data ;;
      responseToError resp err true
  end.

Definition updateDatabaseUserCommon (self : Client) (database name : string)
    (password : option string) (isAdmin : option bool) : M (option error) :=
  let url := getUrl self ("/db/" +:+ database +:+ "/users/" +:+ name) in
  let payload : gmap string Value := ∅ in
  let payload :=
    match password with
    | Some p => <[ "password" := VString p ]> payload
    | None => payload
    end in
  let payload :=
    match isAdmin with
    | Some a => <[ "admin" := VBool a ]> payload
    | None => payload
    end in
  match json_Marshal (VMap payload) with
  | inr err => ret (Some err)
  | inl data =>
      '(resp, err) <- client_Post (httpClient self) url "application/json" data ;;
      responseToError resp err true
  end.

Definition UpdateDatabaseUser (self : Client) (database name password : string) : M (option error) :=
  updateDatabaseUserCommon self database name (Some password) None.

Definition DeleteDatabaseUser (self : Client) (database name : string) : M (option error) :=
  let url := getUrl self ("/db/" +:+ database +:+ "/users/" +:+ name) in
  '(resp, err) <- del self url ;;
  responseToError resp err true.

Definition GetDatabaseUserList (self : Client) (database : string)
  : M (list (gmap string Value) * option error) :=
  let url := getUrl self ("/db/" +:+ database +:+ "/users") in
  listSomething self url.

Definition AlterDatabasePrivilege (self : Client) (database name : string) (isAdmin : bool)
  : M (option error) :=
  updateDatabaseUserCommon self database name None (Some isAdmin).

Definition TimePrecision : Type := string.
Definition Second : TimePrecision := "s".
Definition Millisecond : TimePrecision := "m".
Definition Microsecond : TimePrecision := "u".

(** [for name, value := range options { url += ... }]: Go fixes no order
    for the entries of a map; the callers pass one entry at most. *)
Definition writeSeriesCommon (self : Client) (series : list Series)
    (options : gmap string string) : M (option error) :=
  match json_Marshal_Series series with
  | inr err => ret (Some err)
  | inl data =>
      let url := getUrl self ("/db/" +:+ database self +:+ "/series") in
      let url :=
        fold_left (fun url '(name, value) => url +:+ Sprintf_option name value)
                  (map_to_list options) url in
      '(resp, err) <- client_Post (httpClient self) url "application/json" data ;;
      responseToError resp err true
  end.

Definition WriteSeries (self : Client) (series : list Series) : M (option error) :=
  writeSeriesCommon self series ∅.

Definition WriteSeriesWithTimePrecision (self : Client) (series : list Series)
    (timePrecision : TimePrecision) : M (option error) :=
  writeSeriesCommon self series {[ "time_precision" := timePrecision ]}.

Definition Query (self : Client) (query : string) (precision : list TimePrecision)
  : M (list Series * option error) :=
  let escapedQuery := QueryEscape query in
  let url := getUrl self ("/db/" +:+ database self +:+ "/series") in
  let url :=
    match precision with
    | p :: _ => url +:+ "&time_precision=" +:+ p
    | [] => url
    end in
  let url := url +:+ "&q=" +:+ escapedQuery in
  '(resp, err) <- client_Get (httpClient self) url ;;
  err <- responseToError resp err false ;;
  match err with
  | Some err => ret ([], Some err)
  | None =>
      r <- deref resp ;;
      let defers := [Close (Body r)] in
      '(data, err) <- ReadAll (Body r) ;;
      match err with
      | Some err => returning defers ([], Some err)
      | None =>
          match json_Unmarshal_Series data with
          | inr err => returning defers ([], Some err)
          | inl series => returning defers (series, None)
          end
      end
  end.

Definition Ping (self : Client) : M (option error) :=
  let url := getUrl self "/ping" in
  '(resp, err) <- client_Get (httpClient self) url ;;
  responseToError resp err true.

Definition AuthenticateDatabaseUser (self : Client) (database username password : string)
  : M (option error) :=
  let url := getUrlWithUserAndPass self (Sprintf_authenticate database) username password in
  '(resp, err) <- client_Get (httpClient self) url ;;
  responseToError resp err true.

(** The map [updateDatabaseUserCommon] hands to [json.Marshal]. *)
Definition updatePayload (password : option string) (isAdmin : option bool) : gmap string Value :=
  match password, isAdmin with
  | Some p, Some a => <[ "admin" := VBool a ]> {[ "password" := VString p ]}
  | Some p, None => {[ "password" := VString p ]}
  | None, Some a => {[ "admin" := VBool a ]}
  | None, None => ∅
  end.

(** The status codes [responseToError] takes for success. *)
Definition success (code : Z) : Prop := 200 <= code < 300.

(** A computation is quiet when it only extends the events, and with no
    request. *)
Definition quiet {A : Type} (m : M A) : Prop :=
  forall t0, exists r t', m t0 = (r, (t0 ++ t')%list) /\ requestsOf t' = [].

(** ** The operations as calls *)

(** The operations that answer with an error only, each with its
    arguments. *)
Inductive Command : Type :=
  | CmdCreateDatabase (name : string)
  | CmdDeleteDatabase (name : string)
  | CmdCreateClusterAdmin (name password : string)
  | CmdUpdateClusterAdmin (name password : string)
  | CmdDeleteClusterAdmin (name : string)
  | CmdCreateDatabaseUser (database name password : string)
  | CmdUpdateDatabaseUser (database name password : string)
  | CmdDeleteDatabaseUser (database name : string)
  | CmdAlterDatabasePrivilege (database name : string) (isAdmin : bool)
  | CmdWriteSeries (series : list Series)
  | CmdWriteSeriesWithTimePrecision (series : list Series) (timePrecision : TimePrecision)
  | CmdPing
  | CmdAuthenticateDatabaseUser (database username password : string).

Definition perform (self : Client) (cmd : Command) : M (option error) :=
  match cmd with
  | CmdCreateDatabase name => CreateDatabase self name
  | CmdDeleteDatabase name => DeleteDatabase self name
  | CmdCreateClusterAdmin name password => CreateClusterAdmin self name password
  | CmdUpdateClusterAdmin name password => UpdateClusterAdmin self name password
  | CmdDeleteClusterAdmin name => DeleteClusterAdmin self name
  | CmdCreateDatabaseUser database name password =>
      CreateDatabaseUser self database name password
  | CmdUpdateDatabaseUser database name password =>
      UpdateDatabaseUser self database name password
  | CmdDeleteDatabaseUser database name => DeleteDatabaseUser self database name
  | CmdAlterDatabasePrivilege database name isAdmin =>
      AlterDatabasePrivilege self database name isAdmin
  | CmdWriteSeries series => WriteSeries self series
  | CmdWriteSeriesWithTimePrecision series timePrecision =>
      WriteSeriesWithTimePrecision self series timePrecision
  | CmdPing => Ping self
  | CmdAuthenticateDatabaseUser database username password =>
      AuthenticateDatabaseUser self database username password
  end.

(** The three list operations. *)
Inductive Lookup : Type :=
  | ListDatabases
  | ListClusterAdmins
  | ListDatabaseUsers (database : string).

Definition fetch (self : Client) (l : Lookup) : M (list (gmap string Value) * option error) :=
  match l with
  | ListDatabases => GetDatabaseList self
  | ListClusterAdmins => GetClusterAdminList self
  | ListDatabaseUsers database => GetDatabaseUserList self database
  end.

(** What the transport [h] answers to the request [ev]. *)
Definition answer (h : http_Client) (ev : Event) : option http_Response * option error :=
  match ev with
  | EvGet url => Get h url
  | EvPost url contentType data => Post h url contentType data
  | EvDo req => Do h req
  | EvRead | EvClose => (None, None)
  end.

(** A transport that answers every request with a response or an error. *)
Definition responds (h : http_Client) : Prop :=
  forall ev, isRequest ev = true ->
             is_Some (fst (answer h ev)) \/ is_Some (snd (answer h ev)).

(** The HTTP method a request event stands for. *)
Definition methodOf (ev : Event) : option string :=
  match ev with
  | EvGet _ => Some "GET"
  | EvPost _ _ _ => Some "POST"
  | EvDo req => Some (Method req)
  | EvRead | EvClose => None
  end.

(** The request a command is to make, or the error that keeps it from
    making one: the payload does not encode, or [http.NewRequest] refuses
    the URL. *)
Definition posting (self : Client) (path : string) (payload : gmap string Value)
  : Event + error :=
  match json_Marshal (VMap payload) with
  | inr err => inr err
  | inl data => inl (EvPost (getUrl self path) "application/json" data)
  end.

Definition deleting (self : Client) (path : string) : Event + error :=
  match url_Parse (getUrl self path) with
  | Some err => inr err
  | None => inl (EvDo (mkRequest "DELETE" (getUrl self path)))
  end.

Definition writing (self : Client) (series : list Series) (suffix : string) : Event + error :=
  match json_Marshal_Series series with
  | inr err => inr err
  | inl data =>
      inl (EvPost (getUrl self ("/db/" +:+ database self +:+ "/series") +:+ suffix)
             "application/json" data)
  end.

Definition plan (self : Client) (cmd : Command) : Event + error :=
  match cmd with
  | CmdCreateDatabase name => posting self "/db" {[ "name" := VString name ]}
  | CmdDeleteDatabase name => deleting self ("/db/" +:+ name)
  | CmdCreateClusterAdmin name password =>
      posting self "/cluster_admins"
        (<[ "password" := VString password ]> (<[ "name" := VString name ]> ∅))
  | CmdUpdateClusterAdmin name password =>
      posting self ("/cluster_admins/" +:+ name) {[ "password" := VString password ]}
  | CmdDeleteClusterAdmin name => deleting self ("/cluster_admins/" +:+ name)
  | CmdCreateDatabaseUser database name password =>
      posting self ("/db/" +:+ database +:+ "/users")
        (<[ "password" := VString password ]> (<[ "name" := VString name ]> ∅))
  | CmdUpdateDatabaseUser database name password =>
      posting self ("/db/" +:+ database +:+ "/users/" +:+ name)
        (updatePayload (Some password) None)
  | CmdDeleteDatabaseUser database name =>
      deleting self ("/db/" +:+ database +:+ "/users/" +:+ name)
  | CmdAlterDatabasePrivilege database name isAdmin =>
      posting self ("/db/" +:+ database +:+ "/users/" +:+ name)
        (updatePayload None (Some isAdmin))
  | CmdWriteSeries series => writing self series ""
  | CmdWriteSeriesWithTimePrecision series timePrecision =>
      writing self series (Sprintf_option "time_precision" timePrecision)
  | CmdPing => inl (EvGet (getUrl self "/ping"))
  | CmdAuthenticateDatabaseUser database username password =>
      inl (EvGet (getUrlWithUserAndPass self (Sprintf_authenticate database)
                    username password))
  end.

(** The URL a list operation gets. *)
Definition lookupURL (self : Client) (l : Lookup) : string :=
  match l with
  | ListDatabases => getUrl self "/db"
  | ListClusterAdmins => getUrl self "/cluster_admins"
  | ListDatabaseUsers database => getUrl self ("/db/" +:+ database +:+ "/users")
  end.

(** What [listSomething] and [Query] return for an answer of the transport,
    and what they do to the body, with [decode] for the decoder. *)
Definition decoding {A : Type} (decode : string -> list A + error)
    (a : option http_Response * option error)
  : Outcome (list A * option error) * list Event :=
  match snd a, fst a with
  | Some err, _ => (Returns ([], Some err), [])
  | None, None => (Panics, [])
  | None, Some r =>
      (Returns
         match failure (Body r) with
         | Some err => ([], Some err)
         | None =>
             if (200 <=? StatusCode r) && (StatusCode r <? 300) then
               match decode (pending (Body r)) with
               | inr err => ([], Some err)
               | inl v => (v, None)
               end
             else ([], Some (Errorf_server (StatusCode r) (pending (Body r))))
         end,
       [EvRead; EvClose])
  end.

(** The bytes of a text. *)
Fixpoint bytes (s : string) : list ascii :=
  match s with
  | EmptyString => []
  | String c s' => c :: bytes s'
  end.

(** The URL [Query] gets. *)
Definition queryURL (self : Client) (query : string) (precision : list TimePrecision) : string :=
  getUrl self ("/db/" +:+ database self +:+ "/series")
    +:+ match precision with
        | p :: _ => "&time_precision=" +:+ p
        | [] => ""
        end
    +:+ "&q=" +:+ QueryEscape query.

(** The content type a request event names: [Post] takes one, [Get] and a
    request built with a nil body have none. *)
Definition contentTypeOf (ev : Event) : option string :=
  match ev with
  | EvPost _ contentType _ => Some contentType
  | _ => None
  end.

(** Every request among the events of [m] has the method [method] and the
    content type [contentType]. *)
Definition requestsUse {A : Type} (method : string) (contentType : option string)
    (m : M A) : Prop :=
  Forall (fun ev => isRequest ev = true ->
                    methodOf ev = Some method /\ contentTypeOf ev = contentType)
         (trace m).

(** The bytes [url.QueryEscape] lets through or writes: the unreserved
    ones, [+] and [%]. *)
Definition escaped (c : ascii) : bool :=
  negb (shouldEscape c) || Ascii.eqb c "+" || Ascii.eqb c "%".

(** The client [self] with another database name. *)
Definition withDatabase (self : Client) (name : string) : Client :=
  mkClient (host self) (username self) (password self) name (httpClient self) (schema self).

(** * Theorems *)

(** ** The effect monad *)

Lemma requestsOf_app (t1 t2 : list Event) :
  requestsOf (t1 ++ t2) = (requestsOf t1 ++ requestsOf t2)%list.
Proof. apply List.filter_app. Qed.

Lemma quiet_ret {A : Type} (a : A) : quiet (ret a).
Proof. intros t0. exists (Returns a), []. by rewrite app_nil_r. Qed.

Lemma quiet_panic {A : Type} : quiet (@panic A).
Proof. intros t0. exists Panics, []. by rewrite app_nil_r. Qed.

Lemma quiet_deref {A : Type} (p : option A) : quiet (deref p).
Proof. destruct p; [apply quiet_ret | apply quiet_panic]. Qed.

Lemma quiet_bind {A B : Type} (m : M A) (k : A -> M B) :
  quiet m -> (forall a, quiet (k a)) -> quiet (bind m k).
Proof.
  intros Hm Hk t0. unfold bind.
  destruct (Hm t0) as (r & t1 & -> & H1).
  destruct r as [a|].
  - destruct (Hk a (t0 ++ t1)%list) as (r2 & t2 & -> & H2).
    exists r2, (t1 ++ t2)%list. rewrite app_assoc. split; [done|].
    by rewrite requestsOf_app, H1, H2.
  - by exists Panics, t1.
Qed.

Lemma quiet_Close (b : ReadCloser) : quiet (Close b).
Proof. intros t0. by exists (Returns tt), [EvClose]. Qed.

Lemma quiet_ReadAll (b : ReadCloser) : quiet (ReadAll b).
Proof.
  intros t0. unfold ReadAll.
  destruct (existsb isClose t0); [|destruct (existsb isRead t0)]; by eexists _, [EvRead].
Qed.

Lemma quiet_returning {A : Type} (defers : list (M unit)) (a : A) :
  Forall quiet defers -> quiet (returning defers a).
Proof.
  induction 1 as [|d ds Hd _ IH]; simpl.
  - apply quiet_ret.
  - apply quiet_bind; [done|]. by intros [].
Qed.

Create HintDb quiet.
#[local] Hint Resolve quiet_ret quiet_panic quiet_deref quiet_Close quiet_ReadAll : quiet.

(** The three shapes of [responseToError], by its arguments. *)
Lemma responseToError_err response e closeResponse :
  responseToError response (Some e) closeResponse = ret (Some e).
Proof. reflexivity. Qed.

Lemma responseToError_nil closeResponse :
  responseToError None None closeResponse = panic.
Proof. by destruct closeResponse. Qed.

Lemma responseToError_resp r closeResponse :
  responseToError (Some r) None closeResponse =
  let defers := if closeResponse then [Close (Body r)] else [] in
  if (200 <=? StatusCode r) && (StatusCode r <? 300) then returning defers None
  else
    '(body, err) <- ReadAll (Body r) ;;
    match err with
    | Some err => returning (Close (Body r) :: defers) (Some err)
    | None => returning (Close (Body r) :: defers) (Some (Errorf_server (StatusCode r) body))
    end.
Proof. by destruct closeResponse. Qed.

Lemma quiet_responseToError response err closeResponse :
  quiet (responseToError response err closeResponse).
Proof.
  destruct err as [e|]; [apply quiet_ret|].
  destruct response as [r|]; [|rewrite responseToError_nil; apply quiet_panic].
  rewrite responseToError_resp.
  assert (Forall quiet (if closeResponse then [Close (Body r)] else [])) as Hd
    by (destruct closeResponse; repeat constructor; apply quiet_Close).
  cbv zeta. destruct (_ && _).
  - by apply quiet_returning.
  - apply quiet_bind; [apply quiet_ReadAll|].
    intros [body [e|]]; apply quiet_returning; constructor; auto using quiet_Close.
Qed.

#[local] Hint Resolve quiet_responseToError : quiet.

(** After a quiet computation the requests are those made before it. *)
Lemma requestsOf_quiet {A : Type} (m : M A) (t0 : list Event) :
  quiet m -> requestsOf (snd (m t0)) = requestsOf t0.
Proof.
  intros Hm. destruct (Hm t0) as (r & t' & -> & H). simpl.
  by rewrite requestsOf_app, H, app_nil_r.
Qed.

(** A call on the transport followed by quiet work makes that one request. *)
Lemma requestsOf_Post {A : Type} h url contentType data
    (k : option http_Response * option error -> M A) :
  (forall x, quiet (k x)) ->
  requestsOf (trace (bind (client_Post (Some h) url contentType data) k))
  = [EvPost url contentType data].
Proof.
  intros Hk. unfold trace, run, bind, client_Post, deref, ret, emit. simpl.
  by rewrite requestsOf_quiet.
Qed.

Lemma requestsOf_Get {A : Type} h url
    (k : option http_Response * option error -> M A) :
  (forall x, quiet (k x)) ->
  requestsOf (trace (bind (client_Get (Some h) url) k)) = [EvGet url].
Proof.
  intros Hk. unfold trace, run, bind, client_Get, deref, ret, emit. simpl.
  by rewrite requestsOf_quiet.
Qed.

Lemma requestsOf_Do {A : Type} h req
    (k : option http_Response * option error -> M A) :
  (forall x, quiet (k x)) ->
  requestsOf (trace (bind (client_Do (Some h) req) k)) = [EvDo req].
Proof.
  intros Hk. unfold trace, run, bind, client_Do, deref, ret, emit. simpl.
  by rewrite requestsOf_quiet.
Qed.

(** What is left of [listSomething] and [Query] once the response is in. *)
Lemma quiet_decode {A : Type} (decode : string -> list A + error) resp err :
  quiet (err <- responseToError resp err false ;;
         match err with
         | Some err => ret ([], Some err)
         | None =>
             r <- deref resp ;;
             '(body, err) <- ReadAll (Body r) ;;
             match err with
             | Some err => returning [Close (Body r)] ([], Some err)
             | None =>
                 match decode body with
                 | inr err => returning [Close (Body r)] ([], Some err)
                 | inl v => returning [Close (Body r)] (v, None)
                 end
             end
         end).
Proof.
  apply quiet_bind; [apply quiet_responseToError|].
  intros [e|]; [apply quiet_ret|].
  apply quiet_bind; [apply quiet_deref|]. intros r.
  apply quiet_bind; [apply quiet_ReadAll|].
  intros [body [e|]]; [|destruct (decode body)];
    apply quiet_returning; repeat constructor; apply quiet_Close.
Qed.

(** ** The requests each operation makes *)

Section requests.

Variables (self : Client) (h : http_Client).
Hypothesis Hclient : httpClient self = Some h.

Ltac posted :=
  match goal with
  | Hm : json_Marshal _ = inl _ |- _ => rewrite Hm
  | Hm : json_Marshal_Series _ = inl _ |- _ => rewrite Hm
  end;
  rewrite Hclient; apply requestsOf_Post; intros [resp err]; apply quiet_responseToError.

Lemma CreateDatabase_requests name data :
  json_Marshal (VMap {[ "name" := VString name ]}) = inl data ->
  requestsOf (trace (CreateDatabase self name))
  = [EvPost (getUrl self "/db") "application/json" data].
Proof. intros Hm. unfold CreateDatabase. posted. Qed.

Lemma del_requests {A : Type} url (k : option http_Response * option error -> M A) :
  url_Parse url = None ->
  (forall x, quiet (k x)) ->
  requestsOf (trace (bind (del self url) k)) = [EvDo (mkRequest "DELETE" url)].
Proof.
  intros Hu Hk. unfold del, http_NewRequest. rewrite Hu, Hclient.
  by apply requestsOf_Do.
Qed.

Lemma DeleteDatabase_requests name :
  url_Parse (getUrl self ("/db/" +:+ name)) = None ->
  requestsOf (trace (DeleteDatabase self name))
  = [EvDo (mkRequest "DELETE" (getUrl self ("/db/" +:+ name)))].
Proof.
  intros Hu. unfold DeleteDatabase. apply del_requests; [done|].
  intros [resp err]. apply quiet_responseToError.
Qed.

Lemma listSomething_requests url :
  requestsOf (trace (listSomething self url)) = [EvGet url].
Proof.
  unfold listSomething. rewrite Hclient. apply requestsOf_Get.
  intros [resp err]. apply (quiet_decode Unmarshal_records).
Qed.

Lemma CreateClusterAdmin_requests name password data :
  json_Marshal (VMap (<[ "password" := VString password ]> (<[ "name" := VString name ]> ∅)))
    = inl data ->
  requestsOf (trace (CreateClusterAdmin self name password))
  = [EvPost (getUrl self "/cluster_admins") "application/json" data].
Proof. intros Hm. unfold CreateClusterAdmin. posted. Qed.

Lemma UpdateClusterAdmin_requests name password data :
  json_Marshal (VMap {[ "password" := VString password ]}) = inl data ->
  requestsOf (trace (UpdateClusterAdmin self name password))
  = [EvPost (getUrl self ("/cluster_admins/" +:+ name)) "application/json" data].
Proof. intros Hm. unfold UpdateClusterAdmin. posted. Qed.

Lemma DeleteClusterAdmin_requests name :
  url_Parse (getUrl self ("/cluster_admins/" +:+ name)) = None ->
  requestsOf (trace (DeleteClusterAdmin self name))
  = [EvDo (mkRequest "DELETE" (getUrl self ("/cluster_admins/" +:+ name)))].
Proof.
  intros Hu. unfold DeleteClusterAdmin. apply del_requests; [done|].
  intros [resp err]. apply quiet_responseToError.
Qed.

Lemma CreateDatabaseUser_requests database name password data :
  json_Marshal (VMap (<[ "password" := VString password ]> (<[ "name" := VString name ]> ∅)))
    = inl data ->
  requestsOf (trace (CreateDatabaseUser self database name password))
  = [EvPost (getUrl self ("/db/" +:+ database +:+ "/users")) "application/json" data].
Proof. intros Hm. unfold CreateDatabaseUser. posted. Qed.

Lemma updatePayload_built (password : option string) (isAdmin : option bool) :
  match isAdmin with
  | Some a =>
      <[ "admin" := VBool a ]>
        (match password with
         | Some p => <[ "password" := VString p ]> (∅ : gmap string Value)
         | None => ∅
         end)
  | None =>
      match password with
      | Some p => <[ "password" := VString p ]> ∅
      | None => ∅
      end
  end = updatePayload password isAdmin.
Proof. by destruct password, isAdmin. Qed.

Lemma updateDatabaseUserCommon_requests database name password isAdmin data :
  json_Marshal (VMap (updatePayload password isAdmin)) = inl data ->
  requestsOf (trace (updateDatabaseUserCommon self database name password isAdmin))
  = [EvPost (getUrl self ("/db/" +:+ database +:+ "/users/" +:+ name)) "application/json" data].
Proof.
  intros Hm. unfold updateDatabaseUserCommon. cbv zeta.
  rewrite updatePayload_built. posted.
Qed.

Lemma DeleteDatabaseUser_requests database name :
  url_Parse (getUrl self ("/db/" +:+ database +:+ "/users/" +:+ name)) = None ->
  requestsOf (trace (DeleteDatabaseUser self database name))
  = [EvDo (mkRequest "DELETE" (getUrl self ("/db/" +:+ database +:+ "/users/" +:+ name)))].
Proof.
  intros Hu. unfold DeleteDatabaseUser. apply del_requests; [done|].
  intros [resp err]. apply quiet_responseToError.
Qed.

Lemma writeSeriesCommon_requests series options data :
  json_Marshal_Series series = inl data ->
  requestsOf (trace (writeSeriesCommon self series options))
  = [EvPost (fold_left (fun url '(name, value) => url +:+ Sprintf_option name value)
                       (map_to_list options)
                       (getUrl self ("/db/" +:+ database self +:+ "/series")))
            "application/json" data].
Proof. intros Hm. unfold writeSeriesCommon. posted. Qed.

Lemma Query_requests query precision :
  requestsOf (trace (Query self query precision))
  = [EvGet (match precision with
            | p :: _ => getUrl self ("/db/" +:+ database self +:+ "/series")
                          +:+ "&time_precision=" +:+ p
            | [] => getUrl self ("/db/" +:+ database self +:+ "/series")
            end +:+ "&q=" +:+ QueryEscape query)].
Proof.
  unfold Query. rewrite Hclient. apply requestsOf_Get.
  intros [resp err]. apply (quiet_decode json_Unmarshal_Series).
Qed.

Lemma Ping_requests :
  requestsOf (trace (Ping self)) = [EvGet (getUrl self "/ping")].
Proof.
  unfold Ping. rewrite Hclient. apply requestsOf_Get.
  intros [resp err]. apply quiet_responseToError.
Qed.

Lemma AuthenticateDatabaseUser_requests database username password :
  requestsOf (trace (AuthenticateDatabaseUser self database username password))
  = [EvGet (getUrlWithUserAndPass self (Sprintf_authenticate database) username password)].
Proof.
  unfold AuthenticateDatabaseUser. rewrite Hclient. apply requestsOf_Get.
  intros [resp err]. apply quiet_responseToError.
Qed.

End requests.

#[local] Set Default Proof Using "Type".

(** ** Strings and URL escaping *)

Lemma append_nil (b : string) : "" +:+ b = b.
Proof. reflexivity. Qed.

Lemma append_cons (c : ascii) (a b : string) : String c a +:+ b = String c (a +:+ b).
Proof. reflexivity. Qed.

Lemma append_assoc (a b c : string) : (a +:+ b) +:+ c = a +:+ b +:+ c.
Proof.
  induction a as [|x a IH]; [done|].
  by rewrite !append_cons, IH.
Qed.

Lemma hasPrefix_append (sub rest : string) : hasPrefix sub (sub +:+ rest) = true.
Proof.
  induction sub as [|c sub IH]; [done|].
  rewrite append_cons. simpl. by rewrite Ascii.eqb_refl.
Qed.

(** A text occurring between two others is found by [Contains]. *)
Lemma Contains_middle (pre sub post : string) :
  Contains (pre +:+ sub +:+ post) sub = true.
Proof.
  induction pre as [|c pre IH].
  - rewrite append_nil.
    destruct (sub +:+ post) eqn:E; simpl; rewrite <- E, hasPrefix_append; done.
  - rewrite append_cons. simpl. rewrite IH. apply orb_true_r.
Qed.

Lemma length_append (s t : string) :
  String.length (s +:+ t) = (String.length s + String.length t)%nat.
Proof.
  induction s as [|c s IH]; [done|].
  rewrite append_cons. simpl. by rewrite IH.
Qed.

Lemma append_empty_r (s : string) : s +:+ "" = s.
Proof. induction s as [|c s IH]; [done|]. by rewrite append_cons, IH. Qed.

Lemma Contains_suffix (pre sub : string) : Contains (pre +:+ sub) sub = true.
Proof.
  pose proof (Contains_middle pre sub "") as H.
  by rewrite append_empty_r in H.
Qed.

(** The escape of a text is the escapes of its bytes, one after the other. *)
Lemma QueryEscape_cons (c : ascii) (s : string) :
  QueryEscape (String c s) = QueryEscape (String c "") +:+ QueryEscape s.
Proof.
  cbn [QueryEscape]. by destruct (shouldEscape c), (Ascii.eqb c " ").
Qed.

(** Unescaping undoes the escape of one byte, for each of the 256 bytes. *)
Lemma QueryUnescape_byte (c : ascii) (r : string) :
  QueryUnescape (QueryEscape (String c "") +:+ r) = option_map (String c) (QueryUnescape r).
Proof.
  destruct c as [[] [] [] [] [] [] [] []]; lazy -[QueryUnescape];
    (reflexivity || (destruct (QueryUnescape r); reflexivity)).
Qed.

Lemma QueryUnescape_step (c : ascii) (s : string) :
  QueryUnescape (QueryEscape (String c s))
  = option_map (String c) (QueryUnescape (QueryEscape s)).
Proof. by rewrite QueryEscape_cons, QueryUnescape_byte. Qed.

(** [url.QueryUnescape] reads back what [url.QueryEscape] wrote. *)
Lemma QueryEscape_roundtrip (s : string) : QueryUnescape (QueryEscape s) = Some s.
Proof.
  induction s as [|c s IH]; [done|].
  by rewrite QueryUnescape_step, IH.
Qed.

Local Open Scope nat_scope.

(** ** The JSON reader and its fuel *)

Lemma skipSpace_length (s : string) : String.length (skipSpace s) <= String.length s.
Proof.
  induction s as [|c s IH]; simpl; [done|].
  destruct (isSpace c); simpl; lia.
Qed.

Lemma stripPrefix_length (p s r : string) :
  stripPrefix p s = Some r -> String.length s = String.length p + String.length r.
Proof.
  revert s. induction p as [|a p IH]; intros [|b s] H; simpl in *; try discriminate.
  - by inversion H.
  - by inversion H.
  - destruct (Ascii.eqb a b); [|discriminate]. by rewrite (IH s H).
Qed.

Lemma getu4_length (s : string) (n : N) (r : string) :
  getu4 s = Some (n, r) -> String.length s = 4 + String.length r.
Proof.
  destruct s as [|a [|b [|c [|d rest]]]]; simpl; try discriminate.
  destruct (unhex a), (unhex b), (unhex c), (unhex d); try discriminate.
  by intros [= _ ->].
Qed.

Lemma scanDigits_length (s d r : string) :
  scanDigits s = (d, r) -> String.length s = String.length d + String.length r.
Proof.
  revert d r. induction s as [|c s IH]; intros d r H; simpl in *.
  - by inversion H.
  - destruct (isDigit c).
    + destruct (scanDigits s) as [d' r']. inversion H; subst. simpl.
      by rewrite (IH d' r).
    + by inversion H.
Qed.

Ltac cases H :=
  repeat (match type of H with
          | context [match ?x with _ => _ end] =>
              lazymatch x with
              | context [match _ with _ => _ end] => fail
              | _ => destruct x eqn:?
              end
          end; try discriminate).

Ltac lengths :=
  repeat match goal with
         | E : getu4 _ = Some _ |- _ => apply getu4_length in E
         | E : stripPrefix _ _ = Some _ |- _ => apply stripPrefix_length in E
         | E : scanDigits _ = (_, _) |- _ => apply scanDigits_length in E
         end.

(** A string literal ends after its first byte at the earliest. *)
Lemma parseString_length (fuel : nat) :
  forall s str r, parseString fuel s = Some (str, r) -> String.length r < String.length s.
Proof.
  induction fuel as [|fuel IH]; intros s str r H; [discriminate|].
  destruct s as [|c rest]; [discriminate|].
  cbn [parseString] in H. cbv zeta in H.
  cases H; inversion H; subst; clear H;
    repeat match goal with
           | E : parseString fuel _ = Some _ |- _ => apply IH in E
           end;
    lengths; simpl in *; lia.
Qed.

(** Any fuel above the length of the text gives [parseString] the same
    result. *)
Lemma parseString_fuel (f1 : nat) :
  forall f2 s, String.length s < f1 -> String.length s < f2 ->
  parseString f1 s = parseString f2 s.
Proof.
  induction f1 as [|f1 IH]; intros f2 s H1 H2; [lia|].
  destruct f2 as [|f2]; [lia|].
  destruct s as [|c rest]; [done|].
  cbn [parseString]. cbv zeta.
  repeat match goal with
         | |- context [match ?x with _ => _ end] =>
             lazymatch x with
             | parseString _ _ => fail
             | _ => destruct x eqn:?
             end
         end;
    try reflexivity;
    lengths; simpl in *;
    match goal with
    | |- context [parseString f1 ?r] => rewrite (IH f2 r) by (simpl; lia)
    end; reflexivity.
Qed.

Lemma scanInt_length (s d r : string) :
  scanInt s = Some (d, r) -> String.length r < String.length s.
Proof.
  unfold scanInt. intros H. cases H; inversion H; subst; lengths; simpl in *; lia.
Qed.

Lemma scanFrac_length (s d r : string) :
  scanFrac s = Some (d, r) -> String.length r <= String.length s.
Proof.
  unfold scanFrac. intros H. cases H; inversion H; subst; lengths; simpl in *; lia.
Qed.

Lemma scanExp_length (s mark d r : string) (neg : bool) :
  scanExp s = Some (mark, neg, d, r) -> String.length r <= String.length s.
Proof.
  unfold scanExp. intros H. cases H; inversion H; subst; lengths; simpl in *; lia.
Qed.

Lemma parseNumber_length (s lit r : string) (n : Number) :
  parseNumber s = Some (lit, n, r) -> String.length r < String.length s.
Proof.
  unfold parseNumber. intros H.
  destruct (stripPrefix "-" s) as [s0|] eqn:E0;
    (destruct (scanInt _) as [[ip s1]|] eqn:E1; [|discriminate]);
    (destruct (scanFrac s1) as [[fp s2]|] eqn:E2; [|discriminate]);
    (destruct (scanExp s2) as [[[[mark eneg] ep] s3]|] eqn:E3; [|discriminate]);
    inversion H; subst;
    apply scanInt_length in E1; apply scanFrac_length in E2; apply scanExp_length in E3;
    lengths; simpl in *; lia.
Qed.

Ltac spaces :=
  repeat match goal with
         | E : skipSpace ?x = ?y |- _ =>
             let L := fresh "L" in
             pose proof (skipSpace_length x) as L; rewrite E in L; clear E
         end;
  repeat match goal with
         | H : context [String.length (skipSpace ?x)] |- _ =>
             lazymatch goal with
             | _ : String.length (skipSpace x) <= String.length x |- _ => fail
             | _ => pose proof (skipSpace_length x)
             end
         | |- context [String.length (skipSpace ?x)] =>
             lazymatch goal with
             | _ : String.length (skipSpace x) <= String.length x |- _ => fail
             | _ => pose proof (skipSpace_length x)
             end
         end.

(** Every parser consumes a byte at least. *)
Lemma parse_length (fuel : nat) :
  (forall d s v r, parseValue fuel d s = Some (v, r) -> String.length r < String.length s) /\
  (forall d s vs r, parseElements fuel d s = Some (vs, r) -> String.length r < String.length s) /\
  (forall d s ms r, parseMembers fuel d s = Some (ms, r) -> String.length r < String.length s).
Proof.
  induction fuel as [|fuel (IHv & IHe & IHm)]; [by split_and!|].
  split_and!; intros d s v r H.
  - cbn [parseValue] in H.
    cases H; inversion H; subst; clear H;
      repeat match goal with
             | E : parseString _ _ = Some _ |- _ => apply parseString_length in E
             | E : parseNumber _ = Some _ |- _ => apply parseNumber_length in E
             | E : parseElements fuel _ _ = Some _ |- _ => apply IHe in E
             | E : parseMembers fuel _ _ = Some _ |- _ => apply IHm in E
             end;
      lengths; spaces; simpl in *; lia.
  - cbn [parseElements] in H.
    cases H; inversion H; subst; clear H;
      repeat match goal with
             | E : parseValue fuel _ _ = Some _ |- _ => apply IHv in E
             | E : parseElements fuel _ _ = Some _ |- _ => apply IHe in E
             end;
      lengths; spaces; simpl in *; lia.
  - cbn [parseMembers] in H.
    cases H; inversion H; subst; clear H;
      repeat match goal with
             | E : parseString _ _ = Some _ |- _ => apply parseString_length in E
             | E : parseValue fuel _ _ = Some _ |- _ => apply IHv in E
             | E : parseMembers fuel _ _ = Some _ |- _ => apply IHm in E
             end;
      lengths; spaces; simpl in *; lia.
Qed.

Ltac consumed :=
  repeat match goal with
         | E : parseString _ _ = Some _ |- _ => apply parseString_length in E
         | E : parseNumber _ = Some _ |- _ => apply parseNumber_length in E
         | E : parseValue _ _ _ = Some _ |- _ => apply parse_length in E
         | E : parseElements _ _ _ = Some _ |- _ => apply parse_length in E
         | E : parseMembers _ _ _ = Some _ |- _ => apply parse_length in E
         end;
  lengths; spaces; simpl in *.

(** With fuel for twice the length of the text (and one more for a list of
    elements), more fuel changes nothing. *)
Lemma parse_fuel (f1 : nat) :
  (forall f2 d s, 2 * String.length s + 1 <= f1 -> 2 * String.length s + 1 <= f2 ->
     parseValue f1 d s = parseValue f2 d s) /\
  (forall f2 d s, 2 * String.length s + 2 <= f1 -> 2 * String.length s + 2 <= f2 ->
     parseElements f1 d s = parseElements f2 d s) /\
  (forall f2 d s, 2 * String.length s + 1 <= f1 -> 2 * String.length s + 1 <= f2 ->
     parseMembers f1 d s = parseMembers f2 d s).
Proof.
  induction f1 as [|f1 (IHv & IHe & IHm)]; [split_and!; intros; lia|].
  split_and!; intros [|f2] d s H1 H2; try lia.
  - cbn [parseValue].
    repeat first
      [ reflexivity
      | match goal with
        | |- context [parseElements f1 ?d' ?x] =>
            rewrite (IHe f2 d' x) by (consumed; lia)
        | |- context [parseMembers f1 ?d' ?x] =>
            rewrite (IHm f2 d' x) by (consumed; lia)
        end
      | match goal with
        | |- context [match ?x with _ => _ end] =>
            lazymatch x with
            | context [match _ with _ => _ end] => fail
            | context [f1] => fail
            | _ => destruct x eqn:?
            end
        end ].
  - cbn [parseElements].
    repeat first
      [ reflexivity
      | match goal with
        | |- context [parseValue f1 ?d' ?x] =>
            rewrite (IHv f2 d' x) by (consumed; lia)
        | |- context [parseElements f1 ?d' ?x] =>
            rewrite (IHe f2 d' x) by (consumed; lia)
        end
      | match goal with
        | |- context [match ?x with _ => _ end] =>
            lazymatch x with
            | context [match _ with _ => _ end] => fail
            | context [f1] => fail
            | _ => destruct x eqn:?
            end
        end ].
  - cbn [parseMembers].
    repeat first
      [ reflexivity
      | match goal with
        | |- context [parseValue f1 ?d' ?x] =>
            rewrite (IHv f2 d' x) by (consumed; lia)
        | |- context [parseMembers f1 ?d' ?x] =>
            rewrite (IHm f2 d' x) by (consumed; lia)
        end
      | match goal with
        | |- context [match ?x with _ => _ end] =>
            lazymatch x with
            | context [match _ with _ => _ end] => fail
            | context [f1] => fail
            | _ => destruct x eqn:?
            end
        end ].
Qed.

(** [parseJSON] gives the scan all the fuel it can use. *)
Lemma parseJSON_fuel (data : string) (fuel : nat) :
  2 * String.length data + 1 <= fuel ->
  parseValue fuel 0%N data = parseValue (2 * String.length data + 1) 0%N data.
Proof. intros H. apply parse_fuel; lia. Qed.

Local Close Scope nat_scope.

(** ** Decimal digits *)

Lemma digit_value (n : Z) :
  0 <= n < 10 -> Z.of_nat (nat_of_ascii (digit n)) - 48 = n.
Proof.
  intros Hn. unfold digit.
  rewrite nat_ascii_embedding by lia. lia.
Qed.

Lemma digitsValue_app (a : Z) (s t : string) :
  digitsValue a (s +:+ t) = digitsValue (digitsValue a s) t.
Proof.
  revert a. induction s as [|c s IH]; intros a; [done|].
  rewrite append_cons. simpl. apply IH.
Qed.

(** The digits written are those of [n], in front of [acc]: read back after
    [a] they give [a] shifted by their number, plus [n]. *)
Lemma digits_value (fuel : nat) :
  forall n acc, 0 <= n < 2 ^ Z.of_nat fuel ->
  exists s, digits fuel n acc = s +:+ acc /\
            forall a, digitsValue a s = a * 10 ^ Z.of_nat (String.length s) + n.
Proof.
  induction fuel as [|fuel IH]; intros n acc Hn.
  - exists "". split; [done|]. intros a. simpl in *. lia.
  - cbn [digits]. cbv zeta.
    assert (0 <= n mod 10 < 10) as Hm by (apply Z.mod_pos_bound; lia).
    destruct (n / 10 =? 0) eqn:E.
    + apply Z.eqb_eq in E.
      assert (n mod 10 = n) as Hs by (apply Z.mod_small; apply Z.div_small_iff in E; lia).
      exists (String (digit (n mod 10)) ""). split; [done|].
      intros a. simpl. rewrite digit_value by done. lia.
    + apply Z.eqb_neq in E.
      destruct (IH (n / 10) (String (digit (n mod 10)) acc)) as (s & Hs & Hv).
      { split; [apply Z.div_pos; lia|].
        apply Z.div_lt_upper_bound; [lia|].
        rewrite Nat2Z.inj_succ, Z.pow_succ_r in Hn by lia. lia. }
      exists (s +:+ String (digit (n mod 10)) ""). split.
      * rewrite Hs. by rewrite append_assoc.
      * intros a. rewrite digitsValue_app, Hv. simpl.
        rewrite digit_value by done.
        rewrite length_append. simpl.
        rewrite Nat2Z.inj_add, Z.pow_add_r by lia.
        pose proof (Z.div_mod n 10). lia.
Qed.

(** [Itoa] writes the decimal digits of a number that is not negative:
    reading them back gives the number. *)
Lemma Itoa_value (n : Z) : 0 <= n -> digitsValue 0 (Itoa n) = n.
Proof.
  intros Hn. unfold Itoa.
  destruct (n <? 0) eqn:E; [apply Z.ltb_lt in E; lia|].
  destruct (digits_value (S (Z.to_nat (Z.log2 n))) n "") as (s & Hs & Hv).
  { split; [done|].
    rewrite Nat2Z.inj_succ, Z2Nat.id by apply Z.log2_nonneg.
    destruct (Z.eq_dec n 0) as [->|]; [done|].
    apply Z.log2_spec. lia. }
  rewrite Hs, append_empty_r, Hv. lia.
Qed.

(** ** Requests and their URLs *)

Lemma urlsOf_requestsOf (t : list Event) : urlsOf t = urlsOf (requestsOf t).
Proof.
  induction t as [|e t IH]; [done|].
  destruct e; simpl; by rewrite IH.
Qed.

Lemma getDefault_empty (defaultValue : string) : getDefault "" defaultValue = defaultValue.
Proof. reflexivity. Qed.

Lemma getDefault_given (value defaultValue : string) :
  value <> "" -> getDefault value defaultValue = value.
Proof.
  intros Hv. unfold getDefault.
  destruct (String.eqb value "") eqn:E; [|done].
  by apply String.eqb_eq in E.
Qed.

(** ** Construction *)

(** C3. [NewClient] never fails: for every configuration it returns a
    client and the nil error.  An empty [Host], [Username] or [Password] is
    replaced by [localhost:8086], [root], [root]; a field that is not empty
    is kept as it is (the default of [Database] is the empty text, so it is
    always kept); the scheme is [https] when [IsSecure] is set and [http]
    otherwise; the client always has a transport.  In particular the empty
    configuration gives host [localhost:8086], username and password [root]
    and scheme [http]. *)
Theorem NewClient_defaults (config : ClientConfig) :
  let client := fst (fst (NewClient config)) in
  snd (fst (NewClient config)) = None /\
  (Host config = "" -> host client = "localhost:8086") /\
  (Host config <> "" -> host client = Host config) /\
  (Username config = "" -> username client = "root") /\
  (Username config <> "" -> username client = Username config) /\
  (Password config = "" -> password client = "root") /\
  (Password config <> "" -> password client = Password config) /\
  database client = Database config /\
  (IsSecure config = true -> schema client = "https") /\
  (IsSecure config = false -> schema client = "http") /\
  is_Some (httpClient client) /\
  (forall secure transport,
     fst (NewClient (mkClientConfig "" "" "" "" transport secure))
     = (mkClient "localhost:8086" "root" "root" ""
          (match transport with Some h => Some h | None => Some http_DefaultClient end)
          (if secure then "https" else "http"), None)).
Proof.
  destruct config as [H U P D T S]. cbv zeta. unfold NewClient. simpl.
  assert (getDefault D "" = D) as HD.
  { unfold getDefault. by destruct (String.eqb D "") eqn:E; [apply String.eqb_eq in E|]. }
  rewrite HD.
  destruct T as [h|]; simpl;
    (repeat split; try (by intros ->); try apply getDefault_given; try done; try eauto);
    intros secure [h'|]; reflexivity.
Qed.

(** C10. [NewClient] writes to the configuration object it is given in one
    case only: a nil [HttpClient] field is set to the default transport.  A
    transport that is set stays, and [Host], [Username], [Password],
    [Database] and [IsSecure] are left as they were. *)
Theorem NewClient_config_frame (config : ClientConfig) :
  let config' := snd (NewClient config) in
  HttpClient config' =
    match HttpClient config with
    | None => Some http_DefaultClient
    | Some h => Some h
    end /\
  Host config' = Host config /\
  Username config' = Username config /\
  Password config' = Password config /\
  Database config' = Database config /\
  IsSecure config' = IsSecure config.
Proof.
  cbv zeta. unfold NewClient. simpl.
  destruct (HttpClient config) eqn:E; simpl; rewrite ?E; repeat split.
Qed.


(** ** URLs *)

Ltac one_request lem :=
  rewrite urlsOf_requestsOf; erewrite lem by eassumption; reflexivity.

(** C4. The URL builder gives exactly
    [<scheme>://<host><path>?u=<username>&p=<password>], and [getUrl] fills
    in the credentials stored in the client.  Every operation requests one
    URL, built by [getUrl] from its path (the write with a time precision
    and the query then append their parameters), except
    [AuthenticateDatabaseUser], whose URL carries the user name and the
    password it is given. *)
Theorem request_URL_credentials (self : Client) (h : http_Client) :
  let authURL := fun path u p =>
    schema self +:+ "://" +:+ host self +:+ path +:+ "?u=" +:+ u +:+ "&p=" +:+ p in
  let own := fun path => authURL path (username self) (password self) in
  (forall path u p, getUrlWithUserAndPass self path u p = authURL path u p) /\
  (forall path, getUrl self path = own path) /\
  (httpClient self = Some h ->
  (forall name data,
     json_Marshal (VMap {[ "name" := VString name ]}) = inl data ->
     urlsOf (trace (CreateDatabase self name)) = [own "/db"]) /\
  (forall name,
     url_Parse (getUrl self ("/db/" +:+ name)) = None ->
     urlsOf (trace (DeleteDatabase self name)) = [own ("/db/" +:+ name)]) /\
  urlsOf (trace (GetDatabaseList self)) = [own "/db"] /\
  (forall name password data,
     json_Marshal (VMap (<[ "password" := VString password ]> (<[ "name" := VString name ]> ∅)))
       = inl data ->
     urlsOf (trace (CreateClusterAdmin self name password)) = [own "/cluster_admins"]) /\
  (forall name password data,
     json_Marshal (VMap {[ "password" := VString password ]}) = inl data ->
     urlsOf (trace (UpdateClusterAdmin self name password))
     = [own ("/cluster_admins/" +:+ name)]) /\
  (forall name,
     url_Parse (getUrl self ("/cluster_admins/" +:+ name)) = None ->
     urlsOf (trace (DeleteClusterAdmin self name)) = [own ("/cluster_admins/" +:+ name)]) /\
  urlsOf (trace (GetClusterAdminList self)) = [own "/cluster_admins"] /\
  (forall database name password data,
     json_Marshal (VMap (<[ "password" := VString password ]> (<[ "name" := VString name ]> ∅)))
       = inl data ->
     urlsOf (trace (CreateDatabaseUser self database name password))
     = [own ("/db/" +:+ database +:+ "/users")]) /\
  (forall database name password isAdmin data,
     json_Marshal (VMap (updatePayload password isAdmin)) = inl data ->
     urlsOf (trace (updateDatabaseUserCommon self database name password isAdmin))
     = [own ("/db/" +:+ database +:+ "/users/" +:+ name)]) /\
  (forall database name,
     url_Parse (getUrl self ("/db/" +:+ database +:+ "/users/" +:+ name)) = None ->
     urlsOf (trace (DeleteDatabaseUser self database name))
     = [own ("/db/" +:+ database +:+ "/users/" +:+ name)]) /\
  (forall database,
     urlsOf (trace (GetDatabaseUserList self database))
     = [own ("/db/" +:+ database +:+ "/users")]) /\
  (forall series data,
     json_Marshal_Series series = inl data ->
     urlsOf (trace (WriteSeries self series))
     = [own ("/db/" +:+ database self +:+ "/series")]) /\
  (forall series precision data,
     json_Marshal_Series series = inl data ->
     urlsOf (trace (WriteSeriesWithTimePrecision self series precision))
     = [own ("/db/" +:+ database self +:+ "/series") +:+ "&time_precision=" +:+ precision]) /\
  (forall query,
     urlsOf (trace (Query self query []))
     = [own ("/db/" +:+ database self +:+ "/series") +:+ "&q=" +:+ QueryEscape query]) /\
  (forall query precision more,
     urlsOf (trace (Query self query (precision :: more)))
     = [(own ("/db/" +:+ database self +:+ "/series") +:+ "&time_precision=" +:+ precision)
          +:+ "&q=" +:+ QueryEscape query]) /\
  urlsOf (trace (Ping self)) = [own "/ping"] /\
  (forall database username password,
     urlsOf (trace (AuthenticateDatabaseUser self database username password))
     = [authURL ("/db/" +:+ database +:+ "/authenticate") username password])).
Proof.
  cbv zeta. split; [done|]. split; [done|]. intros Hclient. repeat split; intros.
  - one_request CreateDatabase_requests.
  - one_request DeleteDatabase_requests.
  - unfold GetDatabaseList. one_request listSomething_requests.
  - one_request CreateClusterAdmin_requests.
  - one_request UpdateClusterAdmin_requests.
  - one_request DeleteClusterAdmin_requests.
  - unfold GetClusterAdminList. one_request listSomething_requests.
  - one_request CreateDatabaseUser_requests.
  - one_request updateDatabaseUserCommon_requests.
  - one_request DeleteDatabaseUser_requests.
  - unfold GetDatabaseUserList. one_request listSomething_requests.
  - unfold WriteSeries. rewrite urlsOf_requestsOf.
    erewrite writeSeriesCommon_requests by eassumption.
    by rewrite map_to_list_empty.
  - unfold WriteSeriesWithTimePrecision. rewrite urlsOf_requestsOf.
    erewrite writeSeriesCommon_requests by eassumption.
    by rewrite map_to_list_singleton.
  - one_request Query_requests.
  - one_request Query_requests.
  - one_request Ping_requests.
  - one_request AuthenticateDatabaseUser_requests.
Qed.


Ltac flat_url :=
  unfold getUrl, getUrlWithUserAndPass, Sprintf_url, Sprintf_authenticate;
  rewrite ?append_assoc; reflexivity.

(** C9. Database and user names go into the path of the URL as they are
    given, whatever bytes they hold: the URL is the concatenation of the
    scheme, the host, the fixed path pieces, the names and the credentials.
    Only the text of the query, the value of [q], is passed through
    [url.QueryEscape]. *)
Theorem names_in_path_verbatim (self : Client) (h : http_Client) :
  httpClient self = Some h ->
  let left := schema self +:+ "://" +:+ host self in
  let right := "?u=" +:+ username self +:+ "&p=" +:+ password self in
  (forall name,
     url_Parse (getUrl self ("/db/" +:+ name)) = None ->
     urlsOf (trace (DeleteDatabase self name)) = [left +:+ "/db/" +:+ name +:+ right]) /\
  (forall name password data,
     json_Marshal (VMap {[ "password" := VString password ]}) = inl data ->
     urlsOf (trace (UpdateClusterAdmin self name password))
     = [left +:+ "/cluster_admins/" +:+ name +:+ right]) /\
  (forall name,
     url_Parse (getUrl self ("/cluster_admins/" +:+ name)) = None ->
     urlsOf (trace (DeleteClusterAdmin self name))
     = [left +:+ "/cluster_admins/" +:+ name +:+ right]) /\
  (forall database name password data,
     json_Marshal (VMap (<[ "password" := VString password ]> (<[ "name" := VString name ]> ∅)))
       = inl data ->
     urlsOf (trace (CreateDatabaseUser self database name password))
     = [left +:+ "/db/" +:+ database +:+ "/users" +:+ right]) /\
  (forall database name password isAdmin data,
     json_Marshal (VMap (updatePayload password isAdmin)) = inl data ->
     urlsOf (trace (updateDatabaseUserCommon self database name password isAdmin))
     = [left +:+ "/db/" +:+ database +:+ "/users/" +:+ name +:+ right]) /\
  (forall database name,
     url_Parse (getUrl self ("/db/" +:+ database +:+ "/users/" +:+ name)) = None ->
     urlsOf (trace (DeleteDatabaseUser self database name))
     = [left +:+ "/db/" +:+ database +:+ "/users/" +:+ name +:+ right]) /\
  (forall database,
     urlsOf (trace (GetDatabaseUserList self database))
     = [left +:+ "/db/" +:+ database +:+ "/users" +:+ right]) /\
  (forall series data,
     json_Marshal_Series series = inl data ->
     urlsOf (trace (WriteSeries self series))
     = [left +:+ "/db/" +:+ database self +:+ "/series" +:+ right]) /\
  (forall query,
     urlsOf (trace (Query self query []))
     = [left +:+ "/db/" +:+ database self +:+ "/series" +:+ right
          +:+ "&q=" +:+ QueryEscape query]) /\
  (forall database username password,
     urlsOf (trace (AuthenticateDatabaseUser self database username password))
     = [left +:+ "/db/" +:+ database +:+ "/authenticate"
          +:+ "?u=" +:+ username +:+ "&p=" +:+ password]).
Proof.
  intros Hclient. cbv zeta. repeat split; intros; rewrite urlsOf_requestsOf.
  - erewrite DeleteDatabase_requests by eassumption. simpl. f_equal. flat_url.
  - erewrite UpdateClusterAdmin_requests by eassumption. simpl. f_equal. flat_url.
  - erewrite DeleteClusterAdmin_requests by eassumption. simpl. f_equal. flat_url.
  - erewrite CreateDatabaseUser_requests by eassumption. simpl. f_equal. flat_url.
  - erewrite updateDatabaseUserCommon_requests by eassumption. simpl. f_equal. flat_url.
  - erewrite DeleteDatabaseUser_requests by eassumption. simpl. f_equal. flat_url.
  - unfold GetDatabaseUserList. erewrite listSomething_requests by eassumption.
    simpl. f_equal. flat_url.
  - unfold WriteSeries. erewrite writeSeriesCommon_requests by eassumption.
    rewrite map_to_list_empty. simpl. f_equal. flat_url.
  - erewrite Query_requests by eassumption. simpl. f_equal. flat_url.
  - erewrite AuthenticateDatabaseUser_requests by eassumption. simpl. f_equal. flat_url.
Qed.

(** ** Payloads *)

Lemma updatePayload_dom (password : option string) (isAdmin : option bool) :
  dom (updatePayload password isAdmin)
  = (if password is Some _ then {[ "password" ]} else ∅)
      ∪ (if isAdmin is Some _ then {[ "admin" ]} else ∅).
Proof.
  clear. destruct password, isAdmin; unfold updatePayload;
    rewrite ?dom_insert_L, ?dom_singleton_L, ?dom_empty_L; set_solver.
Qed.

Lemma updatePayload_keys (password : option string) (isAdmin : option bool) :
  ("password" ∈ dom (updatePayload password isAdmin) <-> is_Some password) /\
  ("admin" ∈ dom (updatePayload password isAdmin) <-> is_Some isAdmin) /\
  (forall key, key ∈ dom (updatePayload password isAdmin) ->
               key = "password" \/ key = "admin").
Proof.
  clear. rewrite updatePayload_dom.
  destruct password as [p|], isAdmin as [a|]; split_and!;
    repeat setoid_rewrite elem_of_union;
    repeat setoid_rewrite elem_of_singleton;
    repeat setoid_rewrite elem_of_empty;
    try (intros key; tauto);
    (split; [intros H | intros [x Hx]]; eauto; try discriminate; intuition discriminate).
Qed.

(** C5. The partial update posts the JSON encoding of a map that holds the
    supplied fields and nothing else: for [UpdateDatabaseUser] the map with
    the one key [password], for [AlterDatabasePrivilege] the map with the
    one key [admin], and with neither field supplied the empty map; the
    keys of the map are [password] exactly when a password is supplied and
    [admin] exactly when the flag is. *)
Theorem update_payload_fields (self : Client) (h : http_Client) (database name : string) :
  httpClient self = Some h ->
  let url := getUrl self ("/db/" +:+ database +:+ "/users/" +:+ name) in
  (forall password data,
     json_Marshal (VMap {[ "password" := VString password ]}) = inl data ->
     requestsOf (trace (UpdateDatabaseUser self database name password))
     = [EvPost url "application/json" data]) /\
  (forall isAdmin data,
     json_Marshal (VMap {[ "admin" := VBool isAdmin ]}) = inl data ->
     requestsOf (trace (AlterDatabasePrivilege self database name isAdmin))
     = [EvPost url "application/json" data]) /\
  (forall data,
     json_Marshal (VMap ∅) = inl data ->
     requestsOf (trace (updateDatabaseUserCommon self database name None None))
     = [EvPost url "application/json" data]) /\
  (forall password isAdmin data,
     json_Marshal (VMap (updatePayload password isAdmin)) = inl data ->
     requestsOf (trace (updateDatabaseUserCommon self database name password isAdmin))
     = [EvPost url "application/json" data]) /\
  (forall password isAdmin,
     ("password" ∈ dom (updatePayload password isAdmin) <-> is_Some password) /\
     ("admin" ∈ dom (updatePayload password isAdmin) <-> is_Some isAdmin) /\
     (forall key, key ∈ dom (updatePayload password isAdmin) ->
                  key = "password" \/ key = "admin")) /\
  (forall password, updatePayload (Some password) None = {[ "password" := VString password ]}) /\
  (forall isAdmin, updatePayload None (Some isAdmin) = {[ "admin" := VBool isAdmin ]}) /\
  updatePayload None None = ∅.
Proof.
  intros Hclient. cbv zeta. split_and!; try done.
  - intros password data Hm. unfold UpdateDatabaseUser.
    by apply (updateDatabaseUserCommon_requests _ h).
  - intros isAdmin data Hm. unfold AlterDatabasePrivilege.
    by apply (updateDatabaseUserCommon_requests _ h).
  - intros data Hm. by apply (updateDatabaseUserCommon_requests _ h).
  - intros password isAdmin data Hm. by apply (updateDatabaseUserCommon_requests _ h).
  - apply updatePayload_keys.
Qed.

(** ** Writes and queries *)

(** C8. When the series encode, [WriteSeries] and
    [WriteSeriesWithTimePrecision] make one request: a POST of the encoding
    of the whole sequence, as [application/json], to
    [/db/<database>/series] of the client's database.  The URL of
    [WriteSeries] ends with the credentials; that of
    [WriteSeriesWithTimePrecision] has [&time_precision=<code>] appended. *)
Theorem write_series_one_post (self : Client) (h : http_Client)
    (series : list Series) (data : string) :
  httpClient self = Some h ->
  json_Marshal_Series series = inl data ->
  let url := schema self +:+ "://" +:+ host self +:+ "/db/" +:+ database self +:+ "/series"
               +:+ "?u=" +:+ username self +:+ "&p=" +:+ password self in
  requestsOf (trace (WriteSeries self series)) = [EvPost url "application/json" data] /\
  (forall timePrecision,
     requestsOf (trace (WriteSeriesWithTimePrecision self series timePrecision))
     = [EvPost (url +:+ "&time_precision=" +:+ timePrecision) "application/json" data]).
Proof.
  intros Hclient Hm. cbv zeta. split; [|intros timePrecision].
  - unfold WriteSeries. erewrite writeSeriesCommon_requests by eassumption.
    rewrite map_to_list_empty. simpl. do 2 f_equal. flat_url.
  - unfold WriteSeriesWithTimePrecision.
    erewrite writeSeriesCommon_requests by eassumption.
    rewrite map_to_list_singleton. simpl. do 2 f_equal.
    unfold getUrl, getUrlWithUserAndPass, Sprintf_url, Sprintf_option.
    rewrite ?append_assoc. reflexivity.
Qed.

(** The parameters [Query] appends, in order. *)
Lemma Query_url (self : Client) (h : http_Client) (query : string)
    (precision : list TimePrecision) :
  httpClient self = Some h ->
  urlsOf (trace (Query self query precision))
  = [getUrl self ("/db/" +:+ database self +:+ "/series")
       +:+ match precision with
           | p :: _ => "&time_precision=" +:+ p
           | [] => ""
           end
       +:+ "&q=" +:+ QueryEscape query].
Proof.
  intros Hclient. rewrite urlsOf_requestsOf.
  erewrite Query_requests by eassumption.
  destruct precision as [|p more]; simpl; f_equal; by rewrite ?append_assoc.
Qed.

(** C6. [Query] requests the authenticated URL of [/db/<database>/series]
    followed by [&time_precision=<p>] when a precision is given (the first
    one given), and nothing when none is, and then by [&q=] and the escaped
    query text.  The escape is the one of [url.QueryEscape], which
    [url.QueryUnescape] reads back to the query text: for [a b=c] it is
    [a+b%3Dc], which reads back like [a%20b%3Dc]. *)
Theorem query_url_parameters (self : Client) (h : http_Client) (query : string) :
  httpClient self = Some h ->
  let base := schema self +:+ "://" +:+ host self +:+ "/db/" +:+ database self +:+ "/series"
                +:+ "?u=" +:+ username self +:+ "&p=" +:+ password self in
  (forall p more,
     urlsOf (trace (Query self query (p :: more)))
     = [base +:+ "&time_precision=" +:+ p +:+ "&q=" +:+ QueryEscape query]) /\
  urlsOf (trace (Query self query [])) = [base +:+ "&q=" +:+ QueryEscape query] /\
  QueryUnescape (QueryEscape query) = Some query /\
  (query = "a b=c" ->
     urlsOf (trace (Query self query [Second]))
     = [base +:+ "&time_precision=s&q=a+b%3Dc"] /\
     QueryUnescape "a+b%3Dc" = Some query /\
     QueryUnescape "a%20b%3Dc" = Some query).
Proof.
  intros Hclient. cbv zeta. repeat split; intros; subst;
    try (erewrite Query_url by eassumption; f_equal; flat_url);
    try reflexivity.
  apply QueryEscape_roundtrip.
Qed.


(** ** Response translation *)

Lemma success_true (code : Z) : success code -> (200 <=? code) && (code <? 300) = true.
Proof. unfold success. intros [H1 H2]. apply andb_true_iff. split; lia. Qed.

Lemma success_false (code : Z) : ~ success code -> (200 <=? code) && (code <? 300) = false.
Proof. unfold success. intros H. apply andb_false_iff. lia. Qed.

Ltac step := unfold result, trace, run, bind, ret, returning, ReadAll, Close, emit, deref; simpl.

(** What [responseToError] answers and does to a response, case by case. *)
Lemma responseToError_success r closeResponse :
  success (StatusCode r) ->
  run (responseToError (Some r) None closeResponse)
  = (Returns None, if closeResponse then [EvClose] else []).
Proof.
  intros Hs. rewrite responseToError_resp. cbv zeta.
  rewrite (success_true _ Hs). by destruct closeResponse.
Qed.

Lemma responseToError_server r closeResponse :
  ~ success (StatusCode r) ->
  run (responseToError (Some r) None closeResponse)
  = (Returns (Some (match failure (Body r) with
                    | Some e => e
                    | None => Errorf_server (StatusCode r) (pending (Body r))
                    end)),
     if closeResponse then [EvRead; EvClose; EvClose] else [EvRead; EvClose]).
Proof.
  intros Hs. rewrite responseToError_resp. cbv zeta.
  rewrite (success_false _ Hs). step.
  by destruct (failure (Body r)), closeResponse.
Qed.

(** C1, as amended.  With no transport error, a status code in [200, 300)
    gives the nil error whatever the body holds.  With a status code
    outside that range, if the body is read to its end the error is
    [Server returned (<code>): <body>], whose text contains the decimal
    status code and the whole body; if reading the body fails, the error of
    the read is returned instead.  A transport error is returned as it is,
    and nothing is done to the response. *)
Theorem responseToError_translation :
  (forall r closeResponse,
     success (StatusCode r) ->
     result (responseToError (Some r) None closeResponse) = Returns None) /\
  (forall r closeResponse,
     ~ success (StatusCode r) ->
     failure (Body r) = None ->
     let message :=
       "Server returned (" +:+ Itoa (StatusCode r) +:+ "): " +:+ pending (Body r) in
     result (responseToError (Some r) None closeResponse) = Returns (Some (errorString message)) /\
     Contains message (Itoa (StatusCode r)) = true /\
     Contains message (pending (Body r)) = true) /\
  (forall r closeResponse e,
     ~ success (StatusCode r) ->
     failure (Body r) = Some e ->
     result (responseToError (Some r) None closeResponse) = Returns (Some e)) /\
  (forall response e closeResponse,
     run (responseToError response (Some e) closeResponse) = (Returns (Some e), [])).
Proof.
  split_and!.
  - intros r c Hs. unfold result. by rewrite responseToError_success.
  - intros r c Hs Hf. cbv zeta. split_and!.
    + unfold result. rewrite responseToError_server by done. by rewrite Hf.
    + apply (Contains_middle "Server returned (").
    + rewrite <- !append_assoc. apply Contains_suffix.
  - intros r c e Hs Hf. unfold result. rewrite responseToError_server by done.
    by rewrite Hf.
  - reflexivity.
Qed.

(** What [listSomething] and [Query] do to the response they get. *)
Lemma decode_trace {A : Type} (decode : string -> list A + error) r (t0 : list Event) :
  existsb isClose t0 = false ->
  existsb isRead t0 = false ->
  snd ((err <- responseToError (Some r) None false ;;
        match err with
        | Some err => ret ([], Some err)
        | None =>
            r <- deref (Some r) ;;
            '(body, err) <- ReadAll (Body r) ;;
            match err with
            | Some err => returning [Close (Body r)] ([], Some err)
            | None =>
                match decode body with
                | inr err => returning [Close (Body r)] ([], Some err)
                | inl v => returning [Close (Body r)] (v, None)
                end
            end
        end) t0)
  = (t0 ++ [EvRead; EvClose])%list.
Proof.
  intros Hc Hr. rewrite responseToError_resp. cbv zeta.
  destruct ((200 <=? StatusCode r) && (StatusCode r <? 300)); step; rewrite Hc, Hr.
  - destruct (failure (Body r)); [|destruct (decode (pending (Body r)))];
      simpl; by rewrite <- app_assoc.
  - destruct (failure (Body r)); simpl; by rewrite <- app_assoc.
Qed.

(** C2, as amended.  [responseToError] closes the body once on success
    when it is asked to close; asked not to close, it leaves the body
    untouched on success and, on a status outside [200, 300), reads it and
    then closes it once; given a transport error it does not touch the
    body.  [listSomething] and [Query], which ask it not to close, read the
    body of every response they get once and then close it once, whatever
    the status, the outcome of the read and of the decoding. *)
Theorem body_released (self : Client) (h : http_Client) (r : http_Response) :
  (success (StatusCode r) ->
     trace (responseToError (Some r) None true) = [EvClose] /\
     trace (responseToError (Some r) None false) = []) /\
  (~ success (StatusCode r) ->
     trace (responseToError (Some r) None false) = [EvRead; EvClose]) /\
  (forall response e closeResponse,
     trace (responseToError response (Some e) closeResponse) = []) /\
  (httpClient self = Some h ->
   (forall url, Get h url = (Some r, None)) ->
   (forall url,
      trace (listSomething self url) = [EvGet url; EvRead; EvClose] /\
      reads (trace (listSomething self url)) = 1%nat /\
      closes (trace (listSomething self url)) = 1%nat) /\
   (forall query precision,
      exists url,
        trace (Query self query precision) = [EvGet url; EvRead; EvClose] /\
        reads (trace (Query self query precision)) = 1%nat /\
        closes (trace (Query self query precision)) = 1%nat)).
Proof.
  split_and!.
  - intros Hs. unfold trace. by rewrite !responseToError_success.
  - intros Hs. unfold trace. by rewrite responseToError_server.
  - reflexivity.
  - intros Hclient Hget. split.
    + intros url.
      assert (trace (listSomething self url) = [EvGet url; EvRead; EvClose]) as ->; [|done].
      unfold listSomething, trace, run. rewrite Hclient.
      unfold bind at 1. unfold client_Get, bind, deref, ret, emit. simpl.
      rewrite Hget. by apply (decode_trace Unmarshal_records r [EvGet url]).
    + intros query precision. eexists.
      match goal with
      | |- ?t = ?l /\ _ => assert (t = l) as ->; [|done]
      end.
      unfold Query, trace, run. rewrite Hclient.
      unfold bind at 1. unfold client_Get, bind, deref, ret, emit. simpl.
      rewrite Hget. by apply (decode_trace json_Unmarshal_Series r [EvGet _]).
Qed.


(** ** Decoding *)

Lemma decode_result {A : Type} (decode : string -> list A + error) r (t0 : list Event) :
  success (StatusCode r) ->
  failure (Body r) = None ->
  existsb isClose t0 = false ->
  existsb isRead t0 = false ->
  fst ((err <- responseToError (Some r) None false ;;
        match err with
        | Some err => ret ([], Some err)
        | None =>
            r <- deref (Some r) ;;
            '(body, err) <- ReadAll (Body r) ;;
            match err with
            | Some err => returning [Close (Body r)] ([], Some err)
            | None =>
                match decode body with
                | inr err => returning [Close (Body r)] ([], Some err)
                | inl v => returning [Close (Body r)] (v, None)
                end
            end
        end) t0)
  = Returns (match decode (pending (Body r)) with
             | inr err => ([], Some err)
             | inl v => (v, None)
             end).
Proof.
  intros Hs Hf Hc Hr. rewrite responseToError_resp. cbv zeta.
  rewrite (success_true _ Hs). step. rewrite Hc, Hr, Hf.
  by destruct (decode (pending (Body r))).
Qed.

Lemma listSomething_result (self : Client) (h : http_Client) (r : http_Response) url :
  httpClient self = Some h ->
  Get h url = (Some r, None) ->
  success (StatusCode r) ->
  failure (Body r) = None ->
  result (listSomething self url)
  = Returns (match Unmarshal_records (pending (Body r)) with
             | inr err => ([], Some err)
             | inl records => (records, None)
             end).
Proof.
  intros Hclient Hget Hs Hf. unfold listSomething, result, run. rewrite Hclient.
  unfold bind at 1. unfold client_Get, bind, deref, ret, emit. simpl.
  rewrite Hget. by apply (decode_result Unmarshal_records r [EvGet url]).
Qed.

Lemma Query_result (self : Client) (h : http_Client) (r : http_Response) query precision :
  httpClient self = Some h ->
  (forall url, Get h url = (Some r, None)) ->
  success (StatusCode r) ->
  failure (Body r) = None ->
  result (Query self query precision)
  = Returns (match json_Unmarshal_Series (pending (Body r)) with
             | inr err => ([], Some err)
             | inl series => (series, None)
             end).
Proof.
  intros Hclient Hget Hs Hf. unfold Query, result, run. rewrite Hclient.
  unfold bind at 1. unfold client_Get, bind, deref, ret, emit. simpl.
  rewrite Hget. by apply (decode_result json_Unmarshal_Series r [EvGet _]).
Qed.

(** An array with an element that is neither an object nor [null] does not
    decode. *)
Lemma decodeElements_misfit (elems : list JSON) :
  Exists (fun j => isObjectOrNull j = false) elems ->
  exists e, decodeElements elems = inr e.
Proof.
  induction 1 as [x xs Hx | x xs _ [e IH]]; simpl.
  - destruct x; try discriminate; eauto.
  - rewrite IH. destruct (decodeRecord x); eauto.
Qed.

(** A value that is neither an array nor [null] does not decode. *)
Lemma decodeRecords_misfit (j : JSON) :
  isArrayOrNull j = false -> exists e, decodeRecords j = inr e.
Proof. destruct j; try discriminate; simpl; eauto. Qed.

(** C7, as amended.  After a successful status whose body is read to its
    end, [listSomething] (behind the three list operations) and [Query]
    return what the JSON decoder answers: its error with no records, or its
    records with the nil error.  For the records of [listSomething] the
    decoder reports an error for a text that is not JSON, for a JSON value
    that is neither an array nor [null], and for an array with an element
    that is neither an object nor [null]; the text [null] decodes, without
    an error, to no records.  The text [[{"name":"root"}]] gives one record,
    which maps [name] to [root]. *)
Theorem decode_errors_reported (self : Client) (h : http_Client) (r : http_Response) :
  httpClient self = Some h ->
  (forall url, Get h url = (Some r, None)) ->
  success (StatusCode r) ->
  failure (Body r) = None ->
  let body := pending (Body r) in
  (forall url,
     result (listSomething self url)
     = Returns (match Unmarshal_records body with
                | inr err => ([], Some err)
                | inl records => (records, None)
                end)) /\
  (forall query precision,
     result (Query self query precision)
     = Returns (match json_Unmarshal_Series body with
                | inr err => ([], Some err)
                | inl series => (series, None)
                end)) /\
  (forall url,
     parseJSON body = None ->
     result (listSomething self url) = Returns ([], Some SyntaxError)) /\
  (forall url j,
     parseJSON body = Some j ->
     isArrayOrNull j = false ->
     exists e, result (listSomething self url) = Returns ([], Some e)) /\
  (forall url elems,
     parseJSON body = Some (JArray elems) ->
     Exists (fun j => isObjectOrNull j = false) elems ->
     exists e, result (listSomething self url) = Returns ([], Some e)) /\
  (forall url,
     body = "null" ->
     result (listSomething self url) = Returns ([], None)) /\
  (forall url,
     body = js "[{'name':'root'}]" ->
     result (listSomething self url) = Returns ([ {[ "name" := VString "root" ]} ], None)) /\
  GetDatabaseList self = listSomething self (getUrl self "/db") /\
  GetClusterAdminList self = listSomething self (getUrl self "/cluster_admins") /\
  (forall database,
     GetDatabaseUserList self database
     = listSomething self (getUrl self ("/db/" +:+ database +:+ "/users"))).
Proof.
  intros Hclient Hget Hs Hf. cbv zeta.
  assert (forall url,
            result (listSomething self url)
            = Returns (match Unmarshal_records (pending (Body r)) with
                       | inr err => ([], Some err)
                       | inl records => (records, None)
                       end)) as Hlist
    by (intros url; by apply (listSomething_result self h r)).
  split_and!; try done.
  - intros query precision. by apply (Query_result self h r).
  - intros url Hp. rewrite Hlist. unfold Unmarshal_records. by rewrite Hp.
  - intros url j Hp Hj. rewrite Hlist. unfold Unmarshal_records. rewrite Hp.
    destruct (decodeRecords_misfit j Hj) as [e ->]. eauto.
  - intros url elems Hp He. rewrite Hlist. unfold Unmarshal_records. rewrite Hp.
    simpl. destruct (decodeElements_misfit elems He) as [e ->]. eauto.
  - intros url Hb. rewrite Hlist, Hb. reflexivity.
  - intros url Hb. rewrite Hlist, Hb. by vm_compute.
Qed.


(** ** Operations as a whole *)

(** Started after requests only, [responseToError] does what it does when
    started afresh. *)
Lemma responseToError_after response err closeResponse (t0 : list Event) :
  existsb isClose t0 = false ->
  existsb isRead t0 = false ->
  responseToError response err closeResponse t0
  = (result (responseToError response err closeResponse),
     (t0 ++ trace (responseToError response err closeResponse))%list).
Proof.
  intros Hc Hr.
  destruct err as [e|].
  { unfold result, trace, run. simpl. unfold ret. by rewrite app_nil_r. }
  destruct response as [r|].
  2:{ rewrite responseToError_nil. unfold result, trace, run, panic. simpl.
      by rewrite app_nil_r. }
  rewrite responseToError_resp. cbv zeta.
  destruct ((200 <=? StatusCode r) && (StatusCode r <? 300));
    destruct closeResponse; step; rewrite ?Hc, ?Hr;
    try destruct (failure (Body r)); step; by rewrite <- ?app_assoc, ?app_nil_r.
Qed.

(** One call on the transport and the translation of its answer. *)
Lemma request_run (c : option http_Client) (h : http_Client) (ev : Event)
    (call : M (option http_Response * option error)) (closeResponse : bool) :
  c = Some h ->
  isRequest ev = true ->
  call = (h' <- deref c ;; 'tt <- emit ev ;; ret (answer h' ev)) ->
  run ('(resp, err) <- call ;; responseToError resp err closeResponse)
  = (result (responseToError (fst (answer h ev)) (snd (answer h ev)) closeResponse),
     ev :: trace (responseToError (fst (answer h ev)) (snd (answer h ev)) closeResponse)).
Proof.
  intros -> Hev ->.
  unfold run, bind, deref, ret, emit. simpl.
  destruct (answer h ev) as [resp err]. simpl.
  rewrite responseToError_after; [done| |];
    destruct ev; simpl in *; congruence.
Qed.

Ltac prepare :=
  unfold perform, plan, posting, deleting, writing;
  unfold CreateDatabase, DeleteDatabase, CreateClusterAdmin, UpdateClusterAdmin,
    DeleteClusterAdmin, CreateDatabaseUser, UpdateDatabaseUser, DeleteDatabaseUser,
    AlterDatabasePrivilege, WriteSeries, WriteSeriesWithTimePrecision, Ping,
    AuthenticateDatabaseUser, updateDatabaseUserCommon, writeSeriesCommon, del,
    http_NewRequest;
  cbv zeta; unfold updatePayload;
  rewrite ?insert_empty, ?map_to_list_empty, ?map_to_list_singleton;
  cbn [fold_left]; rewrite ?append_empty_r;
  repeat match goal with
         | |- context [match json_Marshal ?v with _ => _ end] =>
             destruct (json_Marshal v)
         | |- context [match json_Marshal_Series ?v with _ => _ end] =>
             destruct (json_Marshal_Series v)
         | |- context [match url_Parse ?u with _ => _ end] =>
             destruct (url_Parse u)
         end;
  try reflexivity.

(** A command is its plan, one call on the transport and the translation
    of the answer. *)
Lemma perform_run (self : Client) (h : http_Client) (cmd : Command) :
  httpClient self = Some h ->
  run (perform self cmd)
  = match plan self cmd with
    | inr err => (Returns (Some err), [])
    | inl ev =>
        (result (responseToError (fst (answer h ev)) (snd (answer h ev)) true),
         ev :: trace (responseToError (fst (answer h ev)) (snd (answer h ev)) true))
    end.
Proof.
  intros Hclient.
  destruct cmd; prepare;
    (eapply request_run; [exact Hclient | reflexivity | reflexivity]).
Qed.

(** On a client with no transport a command panics where it would send its
    request. *)
Lemma perform_nil (self : Client) (cmd : Command) :
  httpClient self = None ->
  run (perform self cmd)
  = match plan self cmd with
    | inr err => (Returns (Some err), [])
    | inl ev => (Panics, [])
    end.
Proof.
  intros Hclient.
  destruct cmd; prepare;
    unfold client_Post, client_Get, client_Do; by rewrite Hclient.
Qed.

(** The request a plan names is a request. *)
Lemma plan_request (self : Client) (cmd : Command) (ev : Event) :
  plan self cmd = inl ev -> isRequest ev = true.
Proof.
  destruct cmd; unfold plan, posting, deleting, writing;
    repeat match goal with
           | |- context [match ?x with _ => _ end] => destruct x
           end;
    by intros [= <-].
Qed.

(** [listSomething] and [Query] after their request. *)
Lemma decode_after {A : Type} (decode : string -> list A + error)
    (resp : option http_Response) (err : option error) (ev : Event) :
  isRequest ev = true ->
  (err <- responseToError resp err false ;;
   match err with
   | Some err => ret ([], Some err)
   | None =>
       r <- deref resp ;;
       '(body, err) <- ReadAll (Body r) ;;
       match err with
       | Some err => returning [Close (Body r)] ([], Some err)
       | None =>
           match decode body with
           | inr err => returning [Close (Body r)] ([], Some err)
           | inl v => returning [Close (Body r)] (v, None)
           end
       end
   end) [ev]
  = (fst (decoding decode (resp, err)), ev :: snd (decoding decode (resp, err))).
Proof.
  intros Hev.
  assert (existsb isClose [ev] = false /\ existsb isRead [ev] = false) as [Hc Hr]
    by (by destruct ev).
  destruct err as [e|]; [reflexivity|].
  destruct resp as [r|]; [|reflexivity].
  unfold bind at 1. rewrite responseToError_resp. cbv zeta.
  unfold decoding. cbn [fst snd].
  destruct ((200 <=? StatusCode r) && (StatusCode r <? 300)); step;
    simpl in Hc, Hr; rewrite ?Hc, ?Hr;
    destruct (failure (Body r)); try destruct (decode (pending (Body r)));
    step; reflexivity.
Qed.

Lemma listSomething_run (self : Client) (h : http_Client) (url : string) :
  httpClient self = Some h ->
  run (listSomething self url)
  = (fst (decoding Unmarshal_records (Get h url)),
     EvGet url :: snd (decoding Unmarshal_records (Get h url))).
Proof.
  intros Hclient. unfold listSomething, run. rewrite Hclient.
  unfold bind at 1. unfold client_Get, bind, deref, ret, emit. simpl.
  destruct (Get h url) as [resp err].
  by apply (decode_after Unmarshal_records resp err (EvGet url)).
Qed.

Lemma fetch_run (self : Client) (h : http_Client) (l : Lookup) :
  httpClient self = Some h ->
  run (fetch self l)
  = (fst (decoding Unmarshal_records (Get h (lookupURL self l))),
     EvGet (lookupURL self l) :: snd (decoding Unmarshal_records (Get h (lookupURL self l)))).
Proof. intros Hclient. destruct l; by apply listSomething_run. Qed.

Lemma Query_run (self : Client) (h : http_Client) (query : string)
    (precision : list TimePrecision) :
  httpClient self = Some h ->
  run (Query self query precision)
  = (fst (decoding json_Unmarshal_Series (Get h (queryURL self query precision))),
     EvGet (queryURL self query precision)
     :: snd (decoding json_Unmarshal_Series (Get h (queryURL self query precision)))).
Proof.
  intros Hclient. unfold Query, run. cbv zeta. rewrite Hclient.
  assert (match precision with
          | [] => getUrl self ("/db/" +:+ database self +:+ "/series")
          | p :: _ => getUrl self ("/db/" +:+ database self +:+ "/series")
                        +:+ "&time_precision=" +:+ p
          end +:+ "&q=" +:+ QueryEscape query = queryURL self query precision) as ->.
  { unfold queryURL. destruct precision; by rewrite ?append_assoc, ?append_nil. }
  unfold bind at 1. unfold client_Get, bind, deref, ret, emit. simpl.
  destruct (Get h _) as [resp err].
  by apply (decode_after json_Unmarshal_Series resp err (EvGet _)).
Qed.

(** Without a transport the list operations and [Query] panic at once. *)
Lemma fetch_nil (self : Client) (l : Lookup) :
  httpClient self = None -> run (fetch self l) = (Panics, []).
Proof.
  intros Hclient. destruct l; unfold fetch, GetDatabaseList, GetClusterAdminList,
    GetDatabaseUserList, listSomething, client_Get; by rewrite Hclient.
Qed.

Lemma Query_nil (self : Client) (query : string) (precision : list TimePrecision) :
  httpClient self = None -> run (Query self query precision) = (Panics, []).
Proof. intros Hclient. unfold Query, client_Get. by rewrite Hclient. Qed.

(** What [responseToError] returns and leaves behind, by its arguments. *)
Lemma responseToError_cases response err closeResponse :
  run (responseToError response err closeResponse)
  = match err, response with
    | Some e, _ => (Returns (Some e), [])
    | None, None => (Panics, [])
    | None, Some r =>
        if (200 <=? StatusCode r) && (StatusCode r <? 300)
        then (Returns None, if closeResponse then [EvClose] else [])
        else (Returns (Some (match failure (Body r) with
                             | Some e => e
                             | None => Errorf_server (StatusCode r) (pending (Body r))
                             end)),
              if closeResponse then [EvRead; EvClose; EvClose] else [EvRead; EvClose])
    end.
Proof.
  destruct err as [e|]; [reflexivity|].
  destruct response as [r|]; [|by rewrite responseToError_nil].
  rewrite responseToError_resp. cbv zeta.
  destruct ((200 <=? StatusCode r) && (StatusCode r <? 300)); destruct closeResponse;
    step; try destruct (failure (Body r)); reflexivity.
Qed.

Lemma success_iff (code : Z) : (200 <=? code) && (code <? 300) = true <-> success code.
Proof. unfold success. rewrite andb_true_iff. lia. Qed.

(** The body events are no requests, and the transport is not asked about
    them. *)
Lemma answer_body (h : http_Client) (ev : Event) :
  isRequest ev = false -> answer h ev = (None, None).
Proof. by destruct ev. Qed.

Lemma responseToError_events response err closeResponse (ev : Event) :
  In ev (trace (responseToError response err closeResponse)) -> isRequest ev = false.
Proof.
  unfold trace. rewrite responseToError_cases.
  destruct err; [done|]. destruct response as [r|]; [|done].
  destruct ((200 <=? StatusCode r) && (StatusCode r <? 300)), closeResponse; simpl;
    intuition (by subst).
Qed.

Lemma decoding_events {A : Type} (decode : string -> list A + error) a (ev : Event) :
  In ev (snd (decoding decode a)) -> isRequest ev = false.
Proof.
  destruct a as [[r|] [e|]]; unfold decoding; simpl; intuition (by subst).
Qed.

(** The request among the events of an operation is the one planned. *)
Lemma perform_request (self : Client) (h : http_Client) (cmd : Command) (ev : Event) :
  httpClient self = Some h ->
  In ev (trace (perform self cmd)) ->
  isRequest ev = true ->
  plan self cmd = inl ev.
Proof.
  intros Hclient Hin Hev. unfold trace in Hin. rewrite (perform_run self h) in Hin by done.
  destruct (plan self cmd) as [ev0|err]; [|done].
  destruct Hin as [->|Hin]; [done|].
  apply responseToError_events in Hin. congruence.
Qed.

Lemma fetch_request (self : Client) (h : http_Client) (l : Lookup) (ev : Event) :
  httpClient self = Some h ->
  In ev (trace (fetch self l)) ->
  isRequest ev = true ->
  ev = EvGet (lookupURL self l).
Proof.
  intros Hclient Hin Hev. unfold trace in Hin. rewrite (fetch_run self h) in Hin by done.
  destruct Hin as [<-|Hin]; [done|].
  apply decoding_events in Hin. congruence.
Qed.

Lemma Query_request (self : Client) (h : http_Client) query precision (ev : Event) :
  httpClient self = Some h ->
  In ev (trace (Query self query precision)) ->
  isRequest ev = true ->
  ev = EvGet (queryURL self query precision).
Proof.
  intros Hclient Hin Hev. unfold trace in Hin. rewrite (Query_run self h) in Hin by done.
  destruct Hin as [<-|Hin]; [done|].
  apply decoding_events in Hin. congruence.
Qed.

Lemma answered_request (h : http_Client) (ev : Event) :
  answer h ev <> (None, None) -> isRequest ev = true.
Proof. destruct ev; simpl; congruence. Qed.

(** ** Construction, again *)

(** X1. The configuration [NewClient] leaves behind is a fixed point: given
    it again, [NewClient] returns the same client and the nil error and
    writes nothing; the client and the configuration hold the same
    transport. *)
Theorem NewClient_idempotent (config : ClientConfig) :
  NewClient (snd (NewClient config)) = NewClient config /\
  snd (NewClient (snd (NewClient config))) = snd (NewClient config) /\
  httpClient (fst (fst (NewClient config))) = HttpClient (snd (NewClient config)).
Proof.
  destruct config as [H U P D [t|] S]; done.
Qed.

(** ** Panics *)

(** With a transport, an operation panics exactly when the transport
    answers its request with neither a response nor an error. *)
Lemma perform_panics (self : Client) (h : http_Client) (cmd : Command) :
  httpClient self = Some h ->
  result (perform self cmd) = Panics <->
  exists ev, In ev (trace (perform self cmd)) /\ isRequest ev = true /\
             answer h ev = (None, None).
Proof.
  intros Hclient. split.
  - unfold result, trace. rewrite (perform_run self h) by done.
    destruct (plan self cmd) as [ev|err] eqn:Hplan; [|done].
    unfold result. rewrite responseToError_cases. simpl.
    destruct (answer h ev) as [[r|] [e|]] eqn:Ha; simpl; try done.
    + by destruct ((200 <=? StatusCode r) && (StatusCode r <? 300)).
    + intros _. exists ev. split_and!; [by left| by eapply plan_request | done].
  - intros (ev & Hin & Hev & Ha).
    pose proof (perform_request self h cmd ev Hclient Hin Hev) as Hplan.
    unfold result. rewrite (perform_run self h), Hplan by done.
    unfold result. by rewrite responseToError_cases, Ha.
Qed.

Lemma decoding_panics {A : Type} (decode : string -> list A + error) a :
  fst (decoding decode a) = Panics <-> a = (None, None).
Proof. destruct a as [[r|] [e|]]; unfold decoding; simpl; split; congruence. Qed.

Lemma fetch_panics (self : Client) (h : http_Client) (l : Lookup) :
  httpClient self = Some h ->
  result (fetch self l) = Panics <->
  exists ev, In ev (trace (fetch self l)) /\ isRequest ev = true /\
             answer h ev = (None, None).
Proof.
  intros Hclient. split.
  - unfold result, trace. rewrite (fetch_run self h) by done. simpl.
    intros Hp%decoding_panics. eexists. split_and!; [by left|done|done].
  - intros (ev & Hin & Hev & Ha).
    pose proof (fetch_request self h l ev Hclient Hin Hev) as ->.
    unfold result. rewrite (fetch_run self h) by done. simpl.
    by apply decoding_panics.
Qed.

Lemma Query_panics (self : Client) (h : http_Client) query precision :
  httpClient self = Some h ->
  result (Query self query precision) = Panics <->
  exists ev, In ev (trace (Query self query precision)) /\ isRequest ev = true /\
             answer h ev = (None, None).
Proof.
  intros Hclient. split.
  - unfold result, trace. rewrite (Query_run self h) by done. simpl.
    intros Hp%decoding_panics. eexists. split_and!; [by left|done|done].
  - intros (ev & Hin & Hev & Ha).
    pose proof (Query_request self h query precision ev Hclient Hin Hev) as ->.
    unfold result. rewrite (Query_run self h) by done. simpl.
    by apply decoding_panics.
Qed.


Lemma not_Panics {A : Type} (o : Outcome A) : o <> Panics -> exists a, o = Returns a.
Proof. destruct o; [eauto|done]. Qed.

Lemma responds_answer (h : http_Client) (ev : Event) :
  responds h -> isRequest ev = true -> answer h ev <> (None, None).
Proof.
  intros Hr Hev Ha. destruct (Hr ev Hev) as [[x Hx]|[x Hx]]; rewrite Ha in Hx; done.
Qed.

(** X3. Every operation on the client [NewClient] returns comes back (none
    panics) when the transport in the configuration, or the default one for
    a configuration without a transport, answers every request with a
    response or an error. *)
Theorem NewClient_operations_return (config : ClientConfig) :
  responds http_DefaultClient ->
  (forall h, HttpClient config = Some h -> responds h) ->
  let client := fst (fst (NewClient config)) in
  (forall cmd, exists err, result (perform client cmd) = Returns err) /\
  (forall l, exists r, result (fetch client l) = Returns r) /\
  (forall query precision, exists r, result (Query client query precision) = Returns r).
Proof.
  intros Hdefault Hgiven. cbv zeta.
  assert (exists h, httpClient (fst (fst (NewClient config))) = Some h /\ responds h)
    as (h & Hclient & Hr).
  { destruct config as [H U P D [t|] S]; simpl; eauto. }
  split_and!; intros; apply not_Panics.
  - intros (ev & _ & Hev & Ha)%(perform_panics _ h); [|done].
    by apply (responds_answer h ev).
  - intros (ev & _ & Hev & Ha)%(fetch_panics _ h); [|done].
    by apply (responds_answer h ev).
  - intros (ev & _ & Hev & Ha)%(Query_panics _ h); [|done].
    by apply (responds_answer h ev).
Qed.

(** ** The events of an operation *)

(** X4. Whatever the client and the transport, an operation that returns an
    error only leaves one of four sequences of events: nothing; its one
    request; the request and the body closed; the request, the body read
    and then closed twice.  A list operation or [Query] leaves nothing, its
    one request, or the request, the body read and then closed once.  So no
    operation makes a second request, reads a body twice or reads after
    closing. *)
Theorem operation_events (self : Client) :
  (forall cmd,
     let t := trace (perform self cmd) in
     t = [] \/
     exists ev, isRequest ev = true /\
                (t = [ev] \/ t = [ev; EvClose] \/ t = [ev; EvRead; EvClose; EvClose])) /\
  (forall l,
     let t := trace (fetch self l) in
     t = [] \/
     exists ev, isRequest ev = true /\ (t = [ev] \/ t = [ev; EvRead; EvClose])) /\
  (forall query precision,
     let t := trace (Query self query precision) in
     t = [] \/
     exists ev, isRequest ev = true /\ (t = [ev] \/ t = [ev; EvRead; EvClose])).
Proof.
  destruct (httpClient self) as [h|] eqn:Hclient.
  - split_and!; [intros cmd | intros l | intros query precision]; cbv zeta; unfold trace.
    + rewrite (perform_run self h) by done.
      destruct (plan self cmd) as [ev|err] eqn:Hplan; [right|by left].
      exists ev. split; [by eapply plan_request|]. simpl.
      unfold trace. rewrite responseToError_cases.
      destruct (snd (answer h ev)); [by left|].
      destruct (fst (answer h ev)) as [r|]; [|by left].
      destruct ((200 <=? StatusCode r) && (StatusCode r <? 300)); simpl; eauto.
    + rewrite (fetch_run self h) by done. right.
      exists (EvGet (lookupURL self l)). split; [done|]. simpl.
      unfold decoding. destruct (snd (Get h _)); [by left|].
      destruct (fst (Get h _)); simpl; eauto.
    + rewrite (Query_run self h) by done. right.
      exists (EvGet (queryURL self query precision)). split; [done|]. simpl.
      unfold decoding. destruct (snd (Get h _)); [by left|].
      destruct (fst (Get h _)); simpl; eauto.
  - split_and!; [intros cmd | intros l | intros query precision]; cbv zeta;
      unfold trace; left.
    + rewrite perform_nil by done. by destruct (plan self cmd).
    + by rewrite fetch_nil.
    + by rewrite Query_nil.
Qed.

(** ** What an operation returns, answer by answer *)

(** X5. When the transport answers the request of an operation with an
    error, the operation returns that error as it is (the list operations
    and [Query] with no records), and nothing is done after the request:
    the body of a response that came with the error is neither read nor
    closed. *)
Theorem transport_error_returned (self : Client) (h : http_Client) (e : error) :
  httpClient self = Some h ->
  (forall cmd ev,
     In ev (trace (perform self cmd)) ->
     snd (answer h ev) = Some e ->
     run (perform self cmd) = (Returns (Some e), [ev])) /\
  (forall l ev,
     In ev (trace (fetch self l)) ->
     snd (answer h ev) = Some e ->
     run (fetch self l) = (Returns ([], Some e), [ev])) /\
  (forall query precision ev,
     In ev (trace (Query self query precision)) ->
     snd (answer h ev) = Some e ->
     run (Query self query precision) = (Returns ([], Some e), [ev])).
Proof.
  intros Hclient.
  assert (forall ev, snd (answer h ev) = Some e -> isRequest ev = true) as Hreq.
  { intros ev He. apply (answered_request h). intros Ha. by rewrite Ha in He. }
  split_and!.
  - intros cmd ev Hin He.
    rewrite (perform_run self h), (perform_request self h cmd ev) by auto.
    unfold result, trace. rewrite responseToError_cases. by rewrite He.
  - intros l ev Hin He.
    pose proof (fetch_request self h l ev Hclient Hin (Hreq ev He)) as ->.
    rewrite (fetch_run self h) by done. simpl in He. unfold decoding. by rewrite He.
  - intros query precision ev Hin He.
    pose proof (Query_request self h query precision ev Hclient Hin (Hreq ev He)) as ->.
    rewrite (Query_run self h) by done. simpl in He. unfold decoding. by rewrite He.
Qed.

(** X6. When the transport answers the request of an operation that returns
    an error only with a response whose status is in [200, 300), the
    operation returns the nil error and closes the body once without
    reading it. *)
Theorem command_success (self : Client) (h : http_Client) (cmd : Command)
    (ev : Event) (r : http_Response) :
  httpClient self = Some h ->
  In ev (trace (perform self cmd)) ->
  answer h ev = (Some r, None) ->
  success (StatusCode r) ->
  run (perform self cmd) = (Returns None, [ev; EvClose]).
Proof.
  intros Hclient Hin Ha Hs.
  assert (isRequest ev = true) as Hev by (apply (answered_request h); by rewrite Ha).
  rewrite (perform_run self h), (perform_request self h cmd ev) by auto.
  unfold result, trace. rewrite responseToError_cases, Ha. simpl.
  by rewrite (success_true _ Hs).
Qed.

(** X7. When the status of the response is outside [200, 300), such an
    operation reads the body and returns the error
    [Server returned (<code>): <body>], or the error of the read when the
    body breaks off; the body is then closed twice, by the call deferred on
    entry and by the one deferred before the read. *)
Theorem command_server_error (self : Client) (h : http_Client) (cmd : Command)
    (ev : Event) (r : http_Response) :
  httpClient self = Some h ->
  In ev (trace (perform self cmd)) ->
  answer h ev = (Some r, None) ->
  ~ success (StatusCode r) ->
  run (perform self cmd)
  = (Returns (Some (match failure (Body r) with
                    | Some e => e
                    | None => Errorf_server (StatusCode r) (pending (Body r))
                    end)),
     [ev; EvRead; EvClose; EvClose]).
Proof.
  intros Hclient Hin Ha Hs.
  assert (isRequest ev = true) as Hev by (apply (answered_request h); by rewrite Ha).
  rewrite (perform_run self h), (perform_request self h cmd ev) by auto.
  unfold result, trace. rewrite responseToError_cases, Ha. simpl.
  by rewrite (success_false _ Hs).
Qed.

(** X8. The nil error is no accident: an operation that returns the nil
    error has a transport, made its request, and got for it a response with
    a status in [200, 300) and no transport error. *)
Theorem nil_error_means_success (self : Client) (cmd : Command) :
  result (perform self cmd) = Returns None ->
  exists h ev r,
    httpClient self = Some h /\
    trace (perform self cmd) = [ev; EvClose] /\
    isRequest ev = true /\
    answer h ev = (Some r, None) /\
    success (StatusCode r).
Proof.
  unfold result, trace. destruct (httpClient self) as [h|] eqn:Hclient.
  - rewrite (perform_run self h) by done.
    destruct (plan self cmd) as [ev|err] eqn:Hplan; [|done].
    unfold result, trace. rewrite responseToError_cases.
    destruct (answer h ev) as [[r|] [e|]] eqn:Ha; simpl; try done.
    destruct ((200 <=? StatusCode r) && (StatusCode r <? 300)) eqn:Hs; [|done].
    intros _. exists h, ev, r. split_and!; try done.
    + by eapply plan_request.
    + by apply success_iff.
  - rewrite perform_nil by done. by destruct (plan self cmd).
Qed.

(** X9. A list operation or [Query] whose response has a status outside
    [200, 300), or a body that breaks off, returns no records and the error
    (the server error, or the error of the read), whatever the body holds:
    the decoder is not asked.  The body is read once and then closed
    once. *)
Theorem lookup_failure (self : Client) (h : http_Client) (r : http_Response) :
  httpClient self = Some h ->
  ~ success (StatusCode r) \/ is_Some (failure (Body r)) ->
  let err := match failure (Body r) with
             | Some e => e
             | None => Errorf_server (StatusCode r) (pending (Body r))
             end in
  (forall l,
     Get h (lookupURL self l) = (Some r, None) ->
     run (fetch self l) = (Returns ([], Some err), [EvGet (lookupURL self l); EvRead; EvClose])) /\
  (forall query precision,
     Get h (queryURL self query precision) = (Some r, None) ->
     run (Query self query precision)
     = (Returns ([], Some err), [EvGet (queryURL self query precision); EvRead; EvClose])).
Proof.
  intros Hclient Hbad. cbv zeta.
  assert (forall A (decode : string -> list A + error),
            decoding decode (Some r, None)
            = (Returns ([], Some (match failure (Body r) with
                                  | Some e => e
                                  | None => Errorf_server (StatusCode r) (pending (Body r))
                                  end)), [EvRead; EvClose])) as Hd.
  { intros A decode. unfold decoding. simpl.
    destruct Hbad as [Hs|[e He]].
    - rewrite (success_false _ Hs). by destruct (failure (Body r)).
    - by rewrite He. }
  split.
  - intros l Hget. rewrite (fetch_run self h), Hget by done. by rewrite Hd.
  - intros query precision Hget. rewrite (Query_run self h), Hget by done. by rewrite Hd.
Qed.

(** X10. A list operation or [Query] never returns records together with
    an error: when the error is not nil there are no records. *)
Theorem error_means_no_records (self : Client) :
  (forall l records e,
     result (fetch self l) = Returns (records, Some e) -> records = []) /\
  (forall query precision series e,
     result (Query self query precision) = Returns (series, Some e) -> series = []).
Proof.
  assert (forall A (decode : string -> list A + error) a v e,
            fst (decoding decode a) = Returns (v, Some e) -> v = []) as Hd.
  { intros A decode [[r|] [e'|]] v e; unfold decoding; simpl; try congruence.
    destruct (failure (Body r)); [congruence|].
    destruct ((200 <=? StatusCode r) && (StatusCode r <? 300)); [|congruence].
    destruct (decode (pending (Body r))); congruence. }
  destruct (httpClient self) as [h|] eqn:Hclient; split.
  - intros l records e. unfold result. rewrite (fetch_run self h) by done. apply Hd.
  - intros query precision series e. unfold result. rewrite (Query_run self h) by done.
    apply Hd.
  - intros l records e. unfold result. by rewrite fetch_nil.
  - intros query precision series e. unfold result. by rewrite Query_nil.
Qed.

(** X11. The records a list operation returns with the nil error are the
    ones the decoder reads in the body of a response with a status in
    [200, 300) that the transport gave, with no error, for the URL of the
    operation; the same holds for the series of [Query]. *)
Theorem records_come_from_the_body (self : Client) :
  (forall l records,
     result (fetch self l) = Returns (records, None) ->
     exists h r,
       httpClient self = Some h /\
       Get h (lookupURL self l) = (Some r, None) /\
       success (StatusCode r) /\
       failure (Body r) = None /\
       Unmarshal_records (pending (Body r)) = inl records) /\
  (forall query precision series,
     result (Query self query precision) = Returns (series, None) ->
     exists h r,
       httpClient self = Some h /\
       Get h (queryURL self query precision) = (Some r, None) /\
       success (StatusCode r) /\
       failure (Body r) = None /\
       json_Unmarshal_Series (pending (Body r)) = inl series).
Proof.
  assert (forall A (decode : string -> list A + error) a v,
            fst (decoding decode a) = Returns (v, None) ->
            exists r, a = (Some r, None) /\ success (StatusCode r) /\
                      failure (Body r) = None /\ decode (pending (Body r)) = inl v) as Hd.
  { intros A decode [[r|] [e'|]] v; unfold decoding; simpl; try (by intros [=]).
    destruct (failure (Body r)) eqn:Hf; [by intros [=]|].
    destruct ((200 <=? StatusCode r) && (StatusCode r <? 300)) eqn:Hs; [|by intros [=]].
    destruct (decode (pending (Body r))) eqn:Hdec; [|by intros [=]].
    intros [= <-]. exists r. split_and!; try done. by apply success_iff. }
  destruct (httpClient self) as [h|] eqn:Hclient; split.
  - intros l records. unfold result. rewrite (fetch_run self h) by done.
    intros (r & Ha & Hs & Hf & Hdec)%Hd. by exists h, r.
  - intros query precision series. unfold result. rewrite (Query_run self h) by done.
    intros (r & Ha & Hs & Hf & Hdec)%Hd. by exists h, r.
  - intros l records. unfold result. by rewrite fetch_nil.
  - intros query precision series. unfold result. by rewrite Query_nil.
Qed.

(** ** Requests that cannot be made *)

(** X12. An operation whose request cannot be built returns the error and
    sends nothing, with or without a transport: the error of [json.Marshal]
    for the operations that post a payload or series, the error of
    [http.NewRequest] (a URL that does not parse) for the three
    deletions. *)
Theorem unbuilt_request_not_sent (self : Client) (e : error) :
  (forall name,
     json_Marshal (VMap {[ "name" := VString name ]}) = inr e ->
     run (CreateDatabase self name) = (Returns (Some e), [])) /\
  (forall name password,
     json_Marshal (VMap (<[ "password" := VString password ]>
                           (<[ "name" := VString name ]> ∅))) = inr e ->
     run (CreateClusterAdmin self name password) = (Returns (Some e), []) /\
     forall database,
       run (CreateDatabaseUser self database name password) = (Returns (Some e), [])) /\
  (forall password,
     json_Marshal (VMap {[ "password" := VString password ]}) = inr e ->
     forall database name,
       run (UpdateClusterAdmin self name password) = (Returns (Some e), []) /\
       run (UpdateDatabaseUser self database name password) = (Returns (Some e), [])) /\
  (forall isAdmin,
     json_Marshal (VMap {[ "admin" := VBool isAdmin ]}) = inr e ->
     forall database name,
       run (AlterDatabasePrivilege self database name isAdmin) = (Returns (Some e), [])) /\
  (forall series,
     json_Marshal_Series series = inr e ->
     run (WriteSeries self series) = (Returns (Some e), []) /\
     forall timePrecision,
       run (WriteSeriesWithTimePrecision self series timePrecision)
       = (Returns (Some e), [])) /\
  (forall name,
     url_Parse (getUrl self ("/db/" +:+ name)) = Some e ->
     run (DeleteDatabase self name) = (Returns (Some e), [])) /\
  (forall name,
     url_Parse (getUrl self ("/cluster_admins/" +:+ name)) = Some e ->
     run (DeleteClusterAdmin self name) = (Returns (Some e), [])) /\
  (forall database name,
     url_Parse (getUrl self ("/db/" +:+ database +:+ "/users/" +:+ name)) = Some e ->
     run (DeleteDatabaseUser self database name) = (Returns (Some e), [])).
Proof.
  split_and!.
  - intros name Hm. unfold CreateDatabase. by rewrite Hm.
  - intros name password Hm. split; [|intros database].
    + unfold CreateClusterAdmin. by rewrite Hm.
    + unfold CreateDatabaseUser. by rewrite Hm.
  - intros password Hm database name. split.
    + unfold UpdateClusterAdmin. by rewrite Hm.
    + unfold UpdateDatabaseUser, updateDatabaseUserCommon. cbv zeta.
      by rewrite insert_empty, Hm.
  - intros isAdmin Hm database name.
    unfold AlterDatabasePrivilege, updateDatabaseUserCommon. cbv zeta.
    by rewrite insert_empty, Hm.
  - intros series Hm. split; [|intros timePrecision].
    + unfold WriteSeries, writeSeriesCommon. by rewrite Hm.
    + unfold WriteSeriesWithTimePrecision, writeSeriesCommon. by rewrite Hm.
  - intros name Hp. unfold DeleteDatabase, del, http_NewRequest. cbv zeta. by rewrite Hp.
  - intros name Hp. unfold DeleteClusterAdmin, del, http_NewRequest. cbv zeta.
    by rewrite Hp.
  - intros database name Hp. unfold DeleteDatabaseUser, del, http_NewRequest. cbv zeta.
    by rewrite Hp.
Qed.

(** ** Methods *)

(** The request of a command, with or without a transport. *)
Lemma perform_planned (self : Client) (cmd : Command) (ev : Event) :
  In ev (trace (perform self cmd)) -> isRequest ev = true -> plan self cmd = inl ev.
Proof.
  destruct (httpClient self) as [h|] eqn:Hclient.
  - by apply (perform_request self h).
  - unfold trace. rewrite perform_nil by done. by destruct (plan self cmd).
Qed.

Lemma perform_uses (self : Client) (cmd : Command) :
  requestsUse
    match cmd with
    | CmdDeleteDatabase _ | CmdDeleteClusterAdmin _ | CmdDeleteDatabaseUser _ _ => "DELETE"
    | CmdPing | CmdAuthenticateDatabaseUser _ _ _ => "GET"
    | _ => "POST"
    end
    match cmd with
    | CmdDeleteDatabase _ | CmdDeleteClusterAdmin _ | CmdDeleteDatabaseUser _ _
    | CmdPing | CmdAuthenticateDatabaseUser _ _ _ => None
    | _ => Some "application/json"
    end
    (perform self cmd).
Proof.
  unfold requestsUse. apply List.Forall_forall. intros ev Hin Hev.
  pose proof (perform_planned self cmd ev Hin Hev) as Hplan. revert Hplan. clear.
  destruct cmd; unfold plan, posting, deleting, writing;
    repeat match goal with
           | |- context [match ?x with _ => _ end] => destruct x
           end;
    by intros [= <-].
Qed.

Lemma decoding_uses {A : Type} (m : M A) (url : string) (t : list Event) :
  trace m = EvGet url :: t ->
  (forall ev, In ev t -> isRequest ev = false) ->
  requestsUse "GET" None m.
Proof.
  intros Ht Hq. unfold requestsUse. rewrite Ht. constructor; [done|].
  apply List.Forall_forall. intros ev Hin Hev. apply Hq in Hin. congruence.
Qed.

(** X13. The methods: the three deletions send a [DELETE] request with no
    body; the list operations, [Ping], [AuthenticateDatabaseUser] and
    [Query] send a [GET]; every other operation sends a [POST] with the
    content type [application/json].  No operation sends a request of
    another kind, whatever the client and the transport. *)
Theorem request_methods (self : Client) :
  (forall name, requestsUse "DELETE" None (DeleteDatabase self name)) /\
  (forall name, requestsUse "DELETE" None (DeleteClusterAdmin self name)) /\
  (forall database name, requestsUse "DELETE" None (DeleteDatabaseUser self database name)) /\
  requestsUse "GET" None (GetDatabaseList self) /\
  requestsUse "GET" None (GetClusterAdminList self) /\
  (forall database, requestsUse "GET" None (GetDatabaseUserList self database)) /\
  (forall query precision, requestsUse "GET" None (Query self query precision)) /\
  requestsUse "GET" None (Ping self) /\
  (forall database username password,
     requestsUse "GET" None (AuthenticateDatabaseUser self database username password)) /\
  (forall name, requestsUse "POST" (Some "application/json") (CreateDatabase self name)) /\
  (forall name password,
     requestsUse "POST" (Some "application/json") (CreateClusterAdmin self name password)) /\
  (forall name password,
     requestsUse "POST" (Some "application/json") (UpdateClusterAdmin self name password)) /\
  (forall database name password,
     requestsUse "POST" (Some "application/json")
       (CreateDatabaseUser self database name password)) /\
  (forall database name password,
     requestsUse "POST" (Some "application/json")
       (UpdateDatabaseUser self database name password)) /\
  (forall database name isAdmin,
     requestsUse "POST" (Some "application/json")
       (AlterDatabasePrivilege self database name isAdmin)) /\
  (forall series, requestsUse "POST" (Some "application/json") (WriteSeries self series)) /\
  (forall series timePrecision,
     requestsUse "POST" (Some "application/json")
       (WriteSeriesWithTimePrecision self series timePrecision)).
Proof.
  assert (forall l, requestsUse "GET" None (fetch self l)) as Hfetch.
  { intros l. destruct (httpClient self) as [h|] eqn:Hclient.
    - eapply decoding_uses.
      + unfold trace. by rewrite (fetch_run self h).
      + apply decoding_events.
    - unfold requestsUse, trace. by rewrite fetch_nil. }
  split_and!; intros.
  - apply (perform_uses self (CmdDeleteDatabase _)).
  - apply (perform_uses self (CmdDeleteClusterAdmin _)).
  - apply (perform_uses self (CmdDeleteDatabaseUser _ _)).
  - apply (Hfetch ListDatabases).
  - apply (Hfetch ListClusterAdmins).
  - apply (Hfetch (ListDatabaseUsers _)).
  - destruct (httpClient self) as [h|] eqn:Hclient.
    + eapply decoding_uses.
      * unfold trace. by rewrite (Query_run self h).
      * apply decoding_events.
    + unfold requestsUse, trace. by rewrite Query_nil.
  - apply (perform_uses self CmdPing).
  - apply (perform_uses self (CmdAuthenticateDatabaseUser _ _ _)).
  - apply (perform_uses self (CmdCreateDatabase _)).
  - apply (perform_uses self (CmdCreateClusterAdmin _ _)).
  - apply (perform_uses self (CmdUpdateClusterAdmin _ _)).
  - apply (perform_uses self (CmdCreateDatabaseUser _ _ _)).
  - apply (perform_uses self (CmdUpdateDatabaseUser _ _ _)).
  - apply (perform_uses self (CmdAlterDatabasePrivilege _ _ _)).
  - apply (perform_uses self (CmdWriteSeries _)).
  - apply (perform_uses self (CmdWriteSeriesWithTimePrecision _ _)).
Qed.

(** ** The text of a query, the names in a path *)

Lemma bytes_append (a b : string) : bytes (a +:+ b) = (bytes a ++ bytes b)%list.
Proof. induction a as [|c a IH]; [done|]. rewrite append_cons. simpl. by rewrite IH. Qed.

(** The escape of one byte is made of bytes that need no escape, [+] and
    [%], for each of the 256 bytes. *)
Lemma QueryEscape_byte (c : ascii) :
  forallb escaped (bytes (QueryEscape (String c ""))) = true.
Proof. destruct c as [[] [] [] [] [] [] [] []]; reflexivity. Qed.

Lemma QueryEscape_escaped (s : string) : forallb escaped (bytes (QueryEscape s)) = true.
Proof.
  induction s as [|c s IH]; [done|].
  by rewrite QueryEscape_cons, bytes_append, forallb_app, QueryEscape_byte, IH.
Qed.

Lemma append_cancel (a x y : string) : a +:+ x = a +:+ y -> x = y.
Proof.
  induction a as [|c a IH]; [done|].
  rewrite !append_cons. intros [= H]. by apply IH.
Qed.

(** X14. The text of a query cannot spill over its parameter: what [Query]
    puts after [&q=] in the URL is made of letters, digits, [-], [_], [.],
    [~], [+] and [%] only, so it holds no [&], [=], [#], [?], [/] or space,
    whatever the query text; and unescaping it gives the query text back. *)
Theorem query_text_stays_in_q (self : Client) (h : http_Client) (query : string)
    (precision : list TimePrecision) :
  httpClient self = Some h ->
  exists base value,
    urlsOf (trace (Query self query precision)) = [base +:+ "&q=" +:+ value] /\
    base = getUrl self ("/db/" +:+ database self +:+ "/series")
             +:+ match precision with
                 | p :: _ => "&time_precision=" +:+ p
                 | [] => ""
                 end /\
    Forall (fun c => escaped c = true) (bytes value) /\
    Forall (fun c => escaped c = false) (bytes "&=#?/ ") /\
    QueryUnescape value = Some query.
Proof.
  intros Hclient. eexists _, (QueryEscape query). split_and!.
  - rewrite (Query_url self h) by done. by rewrite append_assoc.
  - reflexivity.
  - apply List.Forall_forall, List.forallb_forall, QueryEscape_escaped.
  - repeat constructor.
  - apply QueryEscape_roundtrip.
Qed.

(** X15. Two query texts give the same URL only when they are the same
    text: [Query] with the same client and precision requests the same URL
    for [q1] and [q2] exactly when [q1 = q2]. *)
Theorem Query_url_injective (self : Client) (h : http_Client) (q1 q2 : string)
    (precision : list TimePrecision) :
  httpClient self = Some h ->
  urlsOf (trace (Query self q1 precision)) = urlsOf (trace (Query self q2 precision))
  <-> q1 = q2.
Proof.
  intros Hclient. split; [|by intros ->].
  rewrite !(Query_url self h) by done.
  intros [= H]. do 3 apply append_cancel in H.
  pose proof (QueryEscape_roundtrip q1) as H1. rewrite H, QueryEscape_roundtrip in H1.
  congruence.
Qed.

(** X16. The names in a path are not told apart: as nothing is escaped,
    deleting the database [<d>/users/<n>] is deleting the user [n] of the
    database [d]; the user [<n>/users/<x>] of the database [d] is the user
    [x] of the database [<d>/users/<n>]; and authenticating as [<u>&p=<x>]
    with the password [p] is authenticating as [u] with the password
    [<x>&p=<p>].  The operations are the same computation. *)
Theorem unescaped_names_collide (self : Client) :
  (forall d n, DeleteDatabase self (d +:+ "/users/" +:+ n) = DeleteDatabaseUser self d n) /\
  (forall d n x,
     DeleteDatabaseUser self d (n +:+ "/users/" +:+ x)
     = DeleteDatabaseUser self (d +:+ "/users/" +:+ n) x) /\
  (forall d n x password,
     UpdateDatabaseUser self d (n +:+ "/users/" +:+ x) password
     = UpdateDatabaseUser self (d +:+ "/users/" +:+ n) x password) /\
  (forall d u x p,
     AuthenticateDatabaseUser self d (u +:+ "&p=" +:+ x) p
     = AuthenticateDatabaseUser self d u (x +:+ "&p=" +:+ p)).
Proof.
  split_and!.
  - reflexivity.
  - intros d n x. unfold DeleteDatabaseUser. cbv zeta. by rewrite !append_assoc.
  - intros d n x password. unfold UpdateDatabaseUser, updateDatabaseUserCommon. cbv zeta.
    by rewrite !append_assoc.
  - intros d u x p. unfold AuthenticateDatabaseUser, getUrlWithUserAndPass, Sprintf_url.
    cbv zeta. by rewrite !append_assoc.
Qed.

(** ** The payloads of the creations *)

(** X17. [CreateDatabase] posts to [/db] the encoding of the map with the
    one key [name]; [CreateClusterAdmin] and [CreateDatabaseUser] post, to
    [/cluster_admins] and to [/db/<database>/users], the encoding of the
    same map, which has the keys [name] and [password] and no other;
    [UpdateClusterAdmin] posts to [/cluster_admins/<name>] the encoding of
    the map with the one key [password], the name being in the path only.
    Each makes this one request, whatever the transport answers. *)
Theorem create_payloads (self : Client) (h : http_Client) (name password : string) :
  httpClient self = Some h ->
  let named : gmap string Value := {[ "name" := VString name ]} in
  let account : gmap string Value :=
    <[ "password" := VString password ]> (<[ "name" := VString name ]> ∅) in
  let secret : gmap string Value := {[ "password" := VString password ]} in
  (forall data,
     json_Marshal (VMap named) = inl data ->
     requestsOf (trace (CreateDatabase self name))
     = [EvPost (getUrl self "/db") "application/json" data]) /\
  (forall data,
     json_Marshal (VMap account) = inl data ->
     requestsOf (trace (CreateClusterAdmin self name password))
     = [EvPost (getUrl self "/cluster_admins") "application/json" data] /\
     forall database,
       requestsOf (trace (CreateDatabaseUser self database name password))
       = [EvPost (getUrl self ("/db/" +:+ database +:+ "/users")) "application/json" data]) /\
  (forall data,
     json_Marshal (VMap secret) = inl data ->
     requestsOf (trace (UpdateClusterAdmin self name password))
     = [EvPost (getUrl self ("/cluster_admins/" +:+ name)) "application/json" data]) /\
  dom named = {[ "name" ]} /\
  dom account = {[ "name"; "password" ]} /\
  dom secret = {[ "password" ]} /\
  named !! "name" = Some (VString name) /\
  account !! "name" = Some (VString name) /\
  account !! "password" = Some (VString password) /\
  secret !! "password" = Some (VString password).
Proof.
  intros Hclient. cbv zeta. split_and!.
  - intros data Hm. by apply (CreateDatabase_requests self h).
  - intros data Hm. split; [|intros database].
    + by apply (CreateClusterAdmin_requests self h).
    + by apply (CreateDatabaseUser_requests self h).
  - intros data Hm. by apply (UpdateClusterAdmin_requests self h).
  - clear. by rewrite dom_singleton_L.
  - clear. rewrite !dom_insert_L, dom_empty_L. set_solver.
  - clear. by rewrite dom_singleton_L.
  - done.
  - done.
  - done.
  - done.
Qed.

(** ** The database of the client *)

(** X18. The database name the client holds matters to [WriteSeries],
    [WriteSeriesWithTimePrecision] and [Query] only: every other operation
    is the same computation on a client that differs in that name alone
    (the operations on the users of a database take the database as an
    argument), while the three series operations send their request to the
    path [/db/<name>/series] of the name the client holds. *)
Theorem database_used_by_series_only (self : Client) (name : string) :
  (forall cmd,
     match cmd with
     | CmdWriteSeries _ | CmdWriteSeriesWithTimePrecision _ _ => True
     | _ => perform (withDatabase self name) cmd = perform self cmd
     end) /\
  (forall l, fetch (withDatabase self name) l = fetch self l) /\
  (forall series timePrecision data,
     json_Marshal_Series series = inl data ->
     is_Some (httpClient self) ->
     urlsOf (trace (WriteSeries (withDatabase self name) series))
     = [getUrl self ("/db/" +:+ name +:+ "/series")] /\
     urlsOf (trace (WriteSeriesWithTimePrecision (withDatabase self name) series timePrecision))
     = [getUrl self ("/db/" +:+ name +:+ "/series") +:+ "&time_precision=" +:+ timePrecision]) /\
  (forall query,
     is_Some (httpClient self) ->
     urlsOf (trace (Query (withDatabase self name) query []))
     = [getUrl self ("/db/" +:+ name +:+ "/series") +:+ "&q=" +:+ QueryEscape query]).
Proof.
  split_and!.
  - by intros [].
  - by intros [].
  - intros series timePrecision data Hm [h Hclient].
    assert (forall cmd ev,
              plan (withDatabase self name) cmd = inl ev ->
              urlsOf (trace (perform (withDatabase self name) cmd)) = match urlOf ev with
                                                                     | Some url => [url]
                                                                     | None => []
                                                                     end) as Hurl.
    { intros cmd ev Hplan. unfold trace.
      rewrite (perform_run (withDatabase self name) h), Hplan by done.
      pose proof (plan_request _ _ _ Hplan) as Hev.
      rewrite urlsOf_requestsOf. simpl. rewrite Hev.
      assert (requestsOf (trace (responseToError (fst (answer h ev)) (snd (answer h ev)) true))
              = []) as ->.
      { unfold trace. rewrite responseToError_cases.
        destruct (snd (answer h ev)); [done|].
        destruct (fst (answer h ev)) as [r|]; [|done].
        by destruct ((200 <=? StatusCode r) && (StatusCode r <? 300)). }
      by destruct ev. }
    split.
    + assert (plan (withDatabase self name) (CmdWriteSeries series)
              = inl (EvPost (getUrl self ("/db/" +:+ name +:+ "/series"))
                       "application/json" data)) as Hplan
        by (unfold plan, writing; by rewrite Hm, append_empty_r).
      exact (Hurl _ _ Hplan).
    + assert (plan (withDatabase self name)
                (CmdWriteSeriesWithTimePrecision series timePrecision)
              = inl (EvPost (getUrl self ("/db/" +:+ name +:+ "/series")
                               +:+ "&time_precision=" +:+ timePrecision)
                       "application/json" data)) as Hplan
        by (unfold plan, writing; by rewrite Hm).
      exact (Hurl _ _ Hplan).
  - intros query [h Hclient]. by rewrite (Query_url (withDatabase self name) h).
Qed.

End influxdb.

(** * The theorems at concrete inputs *)

(** What the decoder of the list operations answers: the records of an
    array of objects; no record for [null]; an empty record for a [null]
    element; an error for an object, for an element that is a number, for a
    number out of the range of [float64] and for a text that breaks off. *)
Example Unmarshal_records_array :
  Unmarshal_records (js "[{'name':'a','n':1.5e3},{'name':'b','tags':['x',true,null]}]")
  = inl [ <[ "n" := VNumber "1.5e3" ]> {[ "name" := VString "a" ]};
          <[ "tags" := VSlice [VString "x"; VBool true; VNil] ]> {[ "name" := VString "b" ]} ].
Proof. vm_compute. reflexivity. Qed.

Example Unmarshal_records_null :
  Unmarshal_records "null" = inl [] /\ Unmarshal_records " [ null ] " = inl [∅].
Proof. vm_compute. split; reflexivity. Qed.

Example Unmarshal_records_misfits :
  Unmarshal_records (js "{'name':'root'}")
  = inr (errorString
           "json: cannot unmarshal object into Go value of type []map[string]interface {}") /\
  Unmarshal_records (js "[{'name':'root'}, 5]")
  = inr (errorString
           "json: cannot unmarshal number into Go value of type map[string]interface {}") /\
  Unmarshal_records (js "[{'n':1e309}]")
  = inr (errorString "json: cannot unmarshal number 1e309 into Go value of type float64") /\
  Unmarshal_records (js "[{'name':'root'}") = inr SyntaxError.
Proof. vm_compute. repeat split; reflexivity. Qed.

(** The largest decimal that still rounds into [float64], and the next. *)
Example float64_range :
  Unmarshal_records (js "[{'n':17976931348623158e292}]")
  = inl [ {[ "n" := VNumber "17976931348623158e292" ]} ] /\
  Unmarshal_records (js "[{'n':17976931348623159e292}]")
  = inr (errorString
           "json: cannot unmarshal number 17976931348623159e292 into Go value of type float64").
Proof. vm_compute. split; reflexivity. Qed.

(** Escapes in a string literal, a surrogate pair and a lone surrogate. *)
Example Unmarshal_records_string :
  Unmarshal_records (js "[{'s':'a\/b\u0041\ud83d\ude00\ud83dz'}]")
  = inl [ {[ "s" := VString ("a/bA" +:+ EncodeRune 128512 +:+ replacementChar +:+ "z") ]} ].
Proof. vm_compute. reflexivity. Qed.

(** The end-to-end example of the specification: creating a database
    answered by 201 is no error; answered by 409 it is an error that names
    the status and the body. *)
Example CreateDatabase_created :
  result (CreateDatabase Demo.Marshal (Demo.client (Demo.server 201 "")) "foo") = Returns None.
Proof. reflexivity. Qed.

Example CreateDatabase_conflict :
  result (CreateDatabase Demo.Marshal
            (Demo.client (Demo.server 409 "Database already exists")) "foo")
  = Returns (Some (errorString "Server returned (409): Database already exists")).
Proof. reflexivity. Qed.

(** A transport error comes back from an operation as it is, and a body
    that breaks off gives the error of the read. *)
Example Ping_unreachable :
  run (Ping (Demo.client (Demo.unreachable (errorString "connection refused"))))
  = (Returns (Some (errorString "connection refused")),
     [EvGet "http://localhost:8086/ping?u=root&p=root"]).
Proof. reflexivity. Qed.

Example Ping_broken_body :
  result (Ping (Demo.client (Demo.brokenBody 502 "Bad" (errorString "unexpected EOF"))))
  = Returns (Some (errorString "unexpected EOF")).
Proof. reflexivity. Qed.

(** A name with [/] and [?] in it goes into the URL as it is. *)
Example DeleteDatabase_odd_name :
  urlsOf (trace (DeleteDatabase Demo.anyURL Demo.okClient "a/b?c"))
  = ["http://localhost:8086/db/a/b?c?u=root&p=root"].
Proof. reflexivity. Qed.

(** C1, the claim as stated fails: on status 500 with a body whose read
    breaks off, the error returned is the error of the read, and its text
    does not contain the status code. *)
Lemma responseToError_read_failure :
  result (responseToError
            (Some (mkResponse 500 (mkBody "Internal" (Some (errorString "unexpected EOF")))))
            None true)
  = Returns (Some (errorString "unexpected EOF")) /\
  Contains "unexpected EOF" "500" = false.
Proof. split; reflexivity. Qed.

(** C2, the claim as stated fails: given a transport error the body of the
    response is not closed at all, and on status 500 a caller that asked
    for the body to be closed gets it closed twice. *)
Lemma body_not_closed_once :
  closes (trace (responseToError None (Some (errorString "connection refused")) true))
  = 0%nat /\
  closes (trace (responseToError (Some Demo.okResponse)
                   (Some (errorString "stopped after 10 redirects")) true)) = 0%nat /\
  trace (responseToError (Some (mkResponse 500 (mkBody "Internal" None))) None true)
  = [EvRead; EvClose; EvClose] /\
  closes (trace (responseToError (Some (mkResponse 500 (mkBody "Internal" None))) None true))
  = 2%nat.
Proof. repeat split; reflexivity. Qed.

(** C7, the claim as stated fails: the body [null] is JSON that is not an
    array, and the list operation returns no records and no error. *)
Lemma listSomething_null_body :
  result (GetDatabaseList (Demo.client (Demo.server 200 "null"))) = Returns ([], None).
Proof. vm_compute. reflexivity. Qed.

Lemma request_URL_credentials_witness :
  httpClient Demo.okClient = Some Demo.okServer /\
  urlsOf (trace (Ping Demo.okClient)) = ["http://localhost:8086/ping?u=root&p=root"] /\
  urlsOf (trace (AuthenticateDatabaseUser Demo.okClient "db0" "paul" "secret"))
  = ["http://localhost:8086/db/db0/authenticate?u=paul&p=secret"].
Proof.
  pose proof (request_URL_credentials Demo.anyURL Demo.Marshal Demo.Series
                Demo.Marshal_Series Demo.Unmarshal_Series Demo.okClient Demo.okServer) as H.
  cbv zeta in H. destruct H as (_ & _ & H). specialize (H eq_refl).
  destruct H as (_ & _ & _ & _ & _ & _ & _ & _ & _ & _ & _ & _ & _ & _ & _ & HP & HA).
  split; [reflexivity|]. split; [exact HP | exact (HA "db0" "paul" "secret")].
Defined.

Lemma names_in_path_verbatim_witness :
  httpClient Demo.okClient = Some Demo.okServer /\
  urlsOf (trace (DeleteDatabase Demo.anyURL Demo.okClient "a/b?c"))
  = ["http://localhost:8086/db/a/b?c?u=root&p=root"].
Proof.
  pose proof (names_in_path_verbatim Demo.anyURL Demo.Marshal Demo.Series
                Demo.Marshal_Series Demo.Unmarshal_Series Demo.okClient Demo.okServer eq_refl) as H.
  cbv zeta in H. destruct H as (H & _). split; [reflexivity|].
  exact (H "a/b?c" eq_refl).
Defined.

Lemma update_payload_fields_witness :
  httpClient Demo.okClient = Some Demo.okServer /\
  requestsOf (trace (UpdateDatabaseUser Demo.Marshal Demo.okClient "db0" "paul" "secret"))
  = [EvPost "http://localhost:8086/db/db0/users/paul?u=root&p=root" "application/json"
       (js "{'password':'secret'}")] /\
  requestsOf (trace (AlterDatabasePrivilege Demo.Marshal Demo.okClient "db0" "paul" true))
  = [EvPost "http://localhost:8086/db/db0/users/paul?u=root&p=root" "application/json"
       (js "{'admin':true}")] /\
  requestsOf (trace (updateDatabaseUserCommon Demo.Marshal Demo.okClient "db0" "paul" None None))
  = [EvPost "http://localhost:8086/db/db0/users/paul?u=root&p=root" "application/json" "{}"].
Proof.
  pose proof (update_payload_fields Demo.Marshal Demo.okClient Demo.okServer "db0" "paul" eq_refl) as H.
  cbv zeta in H. destruct H as (H1 & H2 & H3 & _).
  split; [reflexivity|]. split_and!.
  - exact (H1 "secret" _ eq_refl).
  - exact (H2 true _ eq_refl).
  - exact (H3 _ eq_refl).
Defined.

Lemma write_series_one_post_witness :
  httpClient Demo.okClient = Some Demo.okServer /\
  Demo.Marshal_Series [Demo.cpu] = inl (js "[{'columns':['value'],'name':'cpu','points':[[1]]}]") /\
  requestsOf (trace (WriteSeries Demo.Series Demo.Marshal_Series Demo.okClient [Demo.cpu]))
  = [EvPost "http://localhost:8086/db/db0/series?u=root&p=root" "application/json"
       (js "[{'columns':['value'],'name':'cpu','points':[[1]]}]")] /\
  requestsOf (trace (WriteSeriesWithTimePrecision Demo.Series Demo.Marshal_Series Demo.okClient
                       [Demo.cpu] Second))
  = [EvPost "http://localhost:8086/db/db0/series?u=root&p=root&time_precision=s"
       "application/json" (js "[{'columns':['value'],'name':'cpu','points':[[1]]}]")].
Proof.
  assert (Demo.Marshal_Series [Demo.cpu]
          = inl (js "[{'columns':['value'],'name':'cpu','points':[[1]]}]")) as Hm
    by (vm_compute; reflexivity).
  pose proof (write_series_one_post Demo.Series Demo.Marshal_Series Demo.okClient Demo.okServer
                [Demo.cpu] _ eq_refl Hm) as H.
  cbv zeta in H. destruct H as (H1 & H2).
  split; [reflexivity|]. split; [exact Hm|]. split; [exact H1 | exact (H2 Second)].
Defined.

Lemma query_url_parameters_witness :
  httpClient Demo.okClient = Some Demo.okServer /\
  urlsOf (trace (Query Demo.Series Demo.Unmarshal_Series Demo.okClient "a b=c" [Second]))
  = ["http://localhost:8086/db/db0/series?u=root&p=root&time_precision=s&q=a+b%3Dc"] /\
  urlsOf (trace (Query Demo.Series Demo.Unmarshal_Series Demo.okClient "a b=c" []))
  = ["http://localhost:8086/db/db0/series?u=root&p=root&q=a+b%3Dc"].
Proof.
  pose proof (query_url_parameters Demo.Series Demo.Unmarshal_Series Demo.okClient Demo.okServer
                "a b=c" eq_refl) as H.
  cbv zeta in H. destruct H as (H1 & H2 & _).
  split; [reflexivity|]. split; [exact (H1 Second []) | exact H2].
Defined.

Lemma decode_errors_reported_witness :
  httpClient Demo.okClient = Some Demo.okServer /\
  (forall url, Get Demo.okServer url = (Some Demo.okResponse, None)) /\
  success (StatusCode Demo.okResponse) /\
  failure (Body Demo.okResponse) = None /\
  result (GetClusterAdminList Demo.okClient) = Returns ([ {[ "name" := VString "root" ]} ], None).
Proof.
  assert (success (StatusCode Demo.okResponse)) as Hs by (unfold success; simpl; lia).
  pose proof (decode_errors_reported Demo.Series Demo.Unmarshal_Series Demo.okClient Demo.okServer
                Demo.okResponse eq_refl (fun _ => eq_refl) Hs eq_refl) as H.
  cbv zeta in H. destruct H as (_ & _ & _ & _ & _ & _ & H & _).
  split; [reflexivity|]. split; [intros url; reflexivity|].
  split; [exact Hs|]. split; [reflexivity|].
  exact (H _ eq_refl).
Defined.

(** ** The operations as a whole, on the demonstration client *)


(** A client made for a transport that always answers 404, in a program
    whose default transport always answers 200. *)
Lemma NewClient_operations_return_witness :
  responds Demo.okServer /\
  (forall h, Some (Demo.server 404 "no") = Some h -> responds h) /\
  (exists err,
     result (DeleteDatabase Demo.anyURL
               (fst (fst (NewClient Demo.okServer
                            (mkClientConfig "" "" "" "db0" (Some (Demo.server 404 "no")) false))))
               "db0")
     = Returns err).
Proof.
  assert (forall code text, responds (Demo.server code text)) as Hr.
  { intros code text ev Hev. left. destruct ev; try discriminate; by eexists. }
  pose proof (NewClient_operations_return Demo.okServer Demo.anyURL Demo.Marshal Demo.Series
                Demo.Marshal_Series Demo.Unmarshal_Series
                (mkClientConfig "" "" "" "db0" (Some (Demo.server 404 "no")) false)
                (Hr _ _) (fun h '(eq_refl) => Hr _ _)) as H.
  cbv zeta in H. destruct H as (H & _ & _).
  split; [apply Hr|]. split; [by intros h [= <-]|].
  exact (H (CmdDeleteDatabase Demo.Series "db0")).
Defined.

Lemma transport_error_returned_witness :
  httpClient (Demo.client (Demo.unreachable (errorString "connection refused")))
  = Some (Demo.unreachable (errorString "connection refused")) /\
  run (GetDatabaseList (Demo.client (Demo.unreachable (errorString "connection refused"))))
  = (Returns ([], Some (errorString "connection refused")),
     [EvGet "http://localhost:8086/db?u=root&p=root"]).
Proof.
  pose proof (transport_error_returned Demo.anyURL Demo.Marshal Demo.Series
                Demo.Marshal_Series Demo.Unmarshal_Series
                (Demo.client (Demo.unreachable (errorString "connection refused")))
                (Demo.unreachable (errorString "connection refused"))
                (errorString "connection refused") eq_refl) as (_ & H & _).
  split; [reflexivity|].
  apply (H ListDatabases (EvGet "http://localhost:8086/db?u=root&p=root")).
  - left. reflexivity.
  - reflexivity.
Defined.

Lemma command_success_witness :
  httpClient Demo.okClient = Some Demo.okServer /\
  success (StatusCode Demo.okResponse) /\
  run (DeleteClusterAdmin Demo.anyURL Demo.okClient "paul")
  = (Returns None,
     [EvDo (mkRequest "DELETE" "http://localhost:8086/cluster_admins/paul?u=root&p=root");
      EvClose]).
Proof.
  assert (success (StatusCode Demo.okResponse)) as Hs by (unfold success; simpl; lia).
  split; [reflexivity|]. split; [exact Hs|].
  apply (command_success Demo.anyURL Demo.Marshal Demo.Series Demo.Marshal_Series
           Demo.okClient Demo.okServer (CmdDeleteClusterAdmin Demo.Series "paul")
           (EvDo (mkRequest "DELETE" "http://localhost:8086/cluster_admins/paul?u=root&p=root"))
           Demo.okResponse eq_refl).
  - left. reflexivity.
  - reflexivity.
  - exact Hs.
Defined.

Lemma command_server_error_witness :
  httpClient (Demo.client (Demo.server 409 "Database already exists"))
  = Some (Demo.server 409 "Database already exists") /\
  ~ success 409 /\
  run (CreateDatabase Demo.Marshal (Demo.client (Demo.server 409 "Database already exists"))
         "foo")
  = (Returns (Some (errorString "Server returned (409): Database already exists")),
     [EvPost "http://localhost:8086/db?u=root&p=root" "application/json"
        (js "{'name':'foo'}");
      EvRead; EvClose; EvClose]).
Proof.
  assert (~ success 409) as Hs by (unfold success; lia).
  split; [reflexivity|]. split; [exact Hs|].
  apply (command_server_error Demo.anyURL Demo.Marshal Demo.Series Demo.Marshal_Series
           (Demo.client (Demo.server 409 "Database already exists"))
           (Demo.server 409 "Database already exists")
           (CmdCreateDatabase Demo.Series "foo")
           (EvPost "http://localhost:8086/db?u=root&p=root" "application/json"
              (js "{'name':'foo'}"))
           (mkResponse 409 (mkBody "Database already exists" None)) eq_refl).
  - left. vm_compute. reflexivity.
  - reflexivity.
  - exact Hs.
Defined.

Lemma nil_error_means_success_witness :
  result (Ping Demo.okClient) = Returns None /\
  (exists h ev r,
     httpClient Demo.okClient = Some h /\
     trace (Ping Demo.okClient) = [ev; EvClose] /\
     isRequest ev = true /\
     answer h ev = (Some r, None) /\
     success (StatusCode r)).
Proof.
  split; [reflexivity|].
  exact (nil_error_means_success Demo.anyURL Demo.Marshal Demo.Series Demo.Marshal_Series
           Demo.okClient (CmdPing Demo.Series) eq_refl).
Defined.

Lemma lookup_failure_witness :
  httpClient (Demo.client (Demo.server 500 (js "[{'name':'root'}]")))
  = Some (Demo.server 500 (js "[{'name':'root'}]")) /\
  (~ success 500 \/ is_Some (@None error)) /\
  run (GetDatabaseUserList (Demo.client (Demo.server 500 (js "[{'name':'root'}]"))) "db0")
  = (Returns ([], Some (errorString (js "Server returned (500): [{'name':'root'}]"))),
     [EvGet "http://localhost:8086/db/db0/users?u=root&p=root"; EvRead; EvClose]).
Proof.
  assert (~ success 500 \/ is_Some (@None error)) as Hbad by (left; unfold success; lia).
  pose proof (lookup_failure Demo.Series Demo.Unmarshal_Series
                (Demo.client (Demo.server 500 (js "[{'name':'root'}]")))
                (Demo.server 500 (js "[{'name':'root'}]"))
                (mkResponse 500 (mkBody (js "[{'name':'root'}]") None)) eq_refl Hbad) as H.
  cbv zeta in H. destruct H as (H & _).
  split; [reflexivity|]. split; [exact Hbad|].
  exact (H (ListDatabaseUsers "db0") eq_refl).
Defined.

Lemma query_text_stays_in_q_witness :
  httpClient Demo.okClient = Some Demo.okServer /\
  (exists base value,
     urlsOf (trace (Query Demo.Series Demo.Unmarshal_Series Demo.okClient
                      "select * from cpu where host = 'a&b'" [Millisecond]))
     = [base +:+ "&q=" +:+ value] /\
     base = "http://localhost:8086/db/db0/series?u=root&p=root&time_precision=m" /\
     Forall (fun c => escaped c = true) (bytes value) /\
     Forall (fun c => escaped c = false) (bytes "&=#?/ ") /\
     QueryUnescape value = Some "select * from cpu where host = 'a&b'").
Proof.
  split; [reflexivity|].
  exact (query_text_stays_in_q Demo.Series Demo.Unmarshal_Series Demo.okClient Demo.okServer
           "select * from cpu where host = 'a&b'" [Millisecond] eq_refl).
Defined.

Lemma Query_url_injective_witness :
  httpClient Demo.okClient = Some Demo.okServer /\
  (urlsOf (trace (Query Demo.Series Demo.Unmarshal_Series Demo.okClient "a b" []))
   = urlsOf (trace (Query Demo.Series Demo.Unmarshal_Series Demo.okClient "a+b" []))
   <-> "a b" = "a+b").
Proof.
  split; [reflexivity|].
  exact (Query_url_injective Demo.Series Demo.Unmarshal_Series Demo.okClient Demo.okServer
           "a b" "a+b" [] eq_refl).
Defined.

Lemma create_payloads_witness :
  httpClient Demo.okClient = Some Demo.okServer /\
  requestsOf (trace (CreateDatabaseUser Demo.Marshal Demo.okClient "db0" "paul" "secret"))
  = [EvPost "http://localhost:8086/db/db0/users?u=root&p=root" "application/json"
       (js "{'name':'paul','password':'secret'}")].
Proof.
  pose proof (create_payloads Demo.Marshal Demo.okClient Demo.okServer "paul" "secret"
                eq_refl) as H.
  cbv zeta in H. destruct H as (_ & H & _).
  split; [reflexivity|].
  destruct (H _ eq_refl) as (_ & Hu). exact (Hu "db0").
Defined.
